(** * google_detector: login and eligibility detection

    A shallow embedding of
    [Auto_All_System_Pyqt/src/google/backend/google_detector.py].

    The module drives a Playwright page.  The page is an external
    collaborator: it is modelled as an oracle ([Browser]) over an opaque
    world state, each operation of which either returns a value or raises,
    and reports the network responses that the event loop delivered while
    the operation was awaited.  The coroutines of the module become
    computations in a state-and-exception monad over a [Session]: the world,
    the "response" listeners of the page, the closure cells of the
    registered handlers, and a log of the session operations performed.

    The [print] calls of the module and the traceback it prints have no
    part in what the functions return; they are left out.  So is the
    parameter [account_info] of [full_google_detection], which the function
    never reads. *)

From Stdlib Require Import String Ascii List Bool Arith Lia Floats.
Import ListNotations.
Local Open Scope list_scope.
Local Open Scope string_scope.

(** ** Python strings *)

(** The double-quote character, and a string put between two of them. *)
Definition dq : string := String "034"%char EmptyString.
Definition quoted (s : string) : string := dq ++ s ++ dq.

(** [s.startswith(p)]. *)
Fixpoint startswith (p s : string) : bool :=
  match p, s with
  | EmptyString, _ => true
  | String a p', String b s' => Ascii.eqb a b && startswith p' s'
  | String _ _, EmptyString => false
  end.

(** [sub in s] for two [str]: some position of [s] starts with [sub]. *)
Fixpoint str_in (sub s : string) : bool :=
  startswith sub s
  || match s with
     | EmptyString => false
     | String _ s' => str_in sub s'
     end.

(** The mathematical reading of [sub in s]. *)
Definition Contains (sub s : string) : Prop :=
  exists pre post, s = pre ++ sub ++ post.

(** Truthiness of a [str]: the empty string is falsy. *)
Definition truthy (s : string) : bool :=
  match s with
  | EmptyString => false
  | String _ _ => true
  end.

Fixpoint drop (n : nat) (s : string) : string :=
  match n, s with
  | O, _ => s
  | S n', String _ s' => drop n' s'
  | S _, EmptyString => EmptyString
  end.

Fixpoint take_while (f : ascii -> bool) (s : string) : string :=
  match s with
  | EmptyString => EmptyString
  | String c s' => if f c then String c (take_while f s') else EmptyString
  end.

(** A character of the regex class that excludes the double and the
    single quote. *)
Definition not_quote (c : ascii) : bool :=
  negb (Ascii.eqb c "034"%char || Ascii.eqb c "'"%char).

(** [re.search] of the pattern [https://Q*sheerid\.com Q*] in [content],
    where [Q] is the class of the characters that are no quote, as the
    text of [match.group(0)].  The leftmost position wins; there the first
    star is greedy and backtracks to the last [sheerid.com] of the
    quote-free run that follows [https://], and the second star takes the
    rest of that run: the match is [https://] and the whole run, as soon as
    the run holds [sheerid.com]. *)
Fixpoint re_search_sheerid (content : string) : option string :=
  let here :=
    if startswith "https://" content then
      let run := take_while not_quote (drop 8 content) in
      if str_in "sheerid.com" run then Some ("https://" ++ run) else None
    else None in
  match here with
  | Some m => Some m
  | None =>
      match content with
      | EmptyString => None
      | String _ rest => re_search_sheerid rest
      end
  end.

(** ** Status constants *)

Inductive Status : Type :=
| STATUS_NOT_LOGGED_IN
| STATUS_SUBSCRIBED_ANTIGRAVITY
| STATUS_SUBSCRIBED
| STATUS_VERIFIED
| STATUS_LINK_READY
| STATUS_INELIGIBLE
| STATUS_ERROR
| STATUS_PENDING.

(** The string each constant stands for. *)
Definition status_str (st : Status) : string :=
  match st with
  | STATUS_NOT_LOGGED_IN => "not_logged_in"
  | STATUS_SUBSCRIBED_ANTIGRAVITY => "subscribed_antigravity"
  | STATUS_SUBSCRIBED => "subscribed"
  | STATUS_VERIFIED => "verified"
  | STATUS_LINK_READY => "link_ready"
  | STATUS_INELIGIBLE => "ineligible"
  | STATUS_ERROR => "error"
  | STATUS_PENDING => "pending_check"
  end.

(** ** The API response classifier *)

(** [_parse_api_response(response_text)].  The [in] tests of a [str]
    cannot raise, so the [except] arm of the source is never taken. *)
Definition _parse_api_response (response_text : string) : option Status :=
  let has_2tb :=
    str_in "2 TB" response_text
    || str_in "2TB" response_text
    || str_in (quoted "2 TB") response_text in
  let has_antigravity :=
    str_in "Antigravity" response_text
    || str_in (quoted "Antigravity") response_text in
  if has_2tb then
    if has_antigravity then Some STATUS_SUBSCRIBED_ANTIGRAVITY
    else Some STATUS_SUBSCRIBED
  else None.

(** The literal spellings of the two markers. *)
Definition high_tier_markers : list string :=
  ["2 TB"; "2TB"; quoted "2 TB"].
Definition unlock_markers : list string :=
  ["Antigravity"; quoted "Antigravity"].

Definition HasMarker (markers : list string) (body : string) : Prop :=
  exists m, In m markers /\ Contains m body.

(** ** Exceptions and results *)

(** The exceptions the session operations and the module's own waits can
    raise; all of them are subclasses of [Exception].  Playwright's
    [TimeoutError] is not [asyncio.TimeoutError]. *)
Inductive exn : Type :=
| PlaywrightTimeoutError (msg : string)
| PlaywrightError (msg : string)
| AssertionError (msg : string)
| KeyError (msg : string)
| AsyncioTimeoutError.

Inductive res (A : Type) : Type :=
| Ok (a : A)
| Raise (e : exn).
Arguments Ok {A} a.
Arguments Raise {A} e.

(** [except Exception] and the bare [except:]. *)
Definition is_Exception (e : exn) : bool := true.

(** [except asyncio.TimeoutError]. *)
Definition is_asyncio_TimeoutError (e : exn) : bool :=
  match e with
  | AsyncioTimeoutError => true
  | _ => false
  end.

(** ** Responses and the interceptor's closure *)

(** A network response as the listener sees it: [response.url] and the
    outcome of [await response.text()]. *)
Record Response : Type := mkResponse {
  url : string;
  text : res string
}.

(** The two variables [handle_response] closes over. *)
Record Cell : Type := mkCell {
  api_response_data : option string;
  response_received : bool
}.

(** The cell when the closure is created: [api_response_data = None] and
    a new, unset [asyncio.Event]. *)
Definition new_cell : Cell :=
  {| api_response_data := None; response_received := false |}.

(** [handle_response(response)], as its effect on the closure cell.  A
    failure of [response.text()] is caught and only printed. *)
Definition handle_response (response : Response) (c : Cell) : Cell :=
  if str_in "rpcids=GI6Jdd" (url response) then
    match text response with
    | Ok body => {| api_response_data := Some body; response_received := true |}
    | Raise _ => c
    end
  else c.

(** The body a response leaves in the cell, if it does: its URL names the
    backend call and its text can be read. *)
Definition captured (r : Response) : option string :=
  if str_in "rpcids=GI6Jdd" (url r) then
    match text r with
    | Ok body => Some body
    | Raise _ => None
    end
  else None.

(** The body of the latest response of [rs] that leaves one. *)
Fixpoint last_captured (rs : list Response) : option string :=
  match rs with
  | [] => None
  | r :: rest =>
      match last_captured rest with
      | Some body => Some body
      | None => captured r
      end
  end.

(** The handler run on the responses of [rs], one after the other. *)
Definition handle_all (rs : list Response) (c : Cell) : Cell :=
  fold_left (fun c r => handle_response r c) rs c.

Definition is_some {A : Type} (o : option A) : bool :=
  match o with
  | Some _ => true
  | None => false
  end.

(** ** The session *)

(** The session operations, in the order of the log. *)
Inductive Call : Type :=
| page_on_call (event : string) (h : nat)
| page_remove_listener_call (event : string) (h : nat)
| goto_call (target wait_until : string) (timeout_ms : float)
| to_be_visible_call (selector : string) (timeout_ms : float)
| count_call (selector : string)
| get_attribute_call (selector name : string)
| content_call
| wait_for_call (timeout : float)
| wait_for_load_state_call (state : string) (timeout_ms : float).

(** What one awaited operation gives back: the responses delivered while
    it was awaited, its outcome, and the next world. *)
Definition Awaited (W A : Type) : Type := W -> (list Response * res A) * W.

(** The browser behind the page. *)
Record Browser (W : Type) : Type := mkBrowser {
  br_url : W -> res string;
  br_goto : string -> string -> float -> Awaited W unit;
  br_to_be_visible : string -> float -> Awaited W unit;
  br_count : string -> Awaited W nat;
  br_get_attribute : string -> string -> Awaited W (option string);
  br_content : Awaited W string;
  br_event_loop : float -> W -> list Response * W;
  br_wait_for_load_state : string -> float -> Awaited W unit
}.
Arguments br_url {W}.
Arguments br_goto {W}.
Arguments br_to_be_visible {W}.
Arguments br_count {W}.
Arguments br_get_attribute {W}.
Arguments br_content {W}.
Arguments br_event_loop {W}.
Arguments br_wait_for_load_state {W}.

Record Session (W : Type) : Type := mkSession {
  world : W;
  listeners : list nat;
  cells : nat -> Cell;
  calls : list Call
}.
Arguments mkSession {W}.
Arguments world {W}.
Arguments listeners {W}.
Arguments cells {W}.
Arguments calls {W}.

(** The URLs and selectors of the module. *)
Definition accounts_url : string := "https://accounts.google.com/".
Definition one_url : string :=
  "https://one.google.com/ai-student?g1_landing_page=75".

Definition login_indicators : list string :=
  [ "accounts.google.com/v3/signin";
    "accounts.google.com/signin";
    "accounts.google.com/ServiceLogin" ].

Definition avatar_selectors : list string :=
  [ "a[aria-label*=" ++ quoted "Google Account" ++ "] img.gbii";
    "a.gb_B[role=" ++ quoted "button" ++ "] img";
    "a[href*=" ++ quoted "SignOutOptions" ++ "] img";
    "img.gb_Q.gbii" ].

Definition link_ready_selector : string := "[jsname=" ++ quoted "hSRGPd" ++ "]".
Definition verified_selector : string := "[jsname=" ++ quoted "V67aGc" ++ "]".
Definition sheerid_selector : string := "a[href*=" ++ quoted "sheerid.com" ++ "]".

Definition offer_selectors : list string :=
  [ "button:has-text(" ++ quoted "Get student offer" ++ ")";
    "button:has-text(" ++ quoted "Get offer" ++ ")";
    "[data-action=" ++ quoted "offerDetails" ++ "]" ].

Section Detector.

Context {W : Type} (br : Browser W).

(** *** The monad of the coroutines *)

Definition M (A : Type) : Type := Session W -> res A * Session W.

Definition ret {A : Type} (a : A) : M A := fun s => (Ok a, s).

Definition bind {A B : Type} (m : M A) (k : A -> M B) : M B :=
  fun s =>
    match m s with
    | (Ok a, s') => k a s'
    | (Raise e, s') => (Raise e, s')
    end.

Notation "x <- m ;; k" := (bind m (fun x => k))
  (at level 61, m at next level, right associativity).
Notation "m ;;; k" := (bind m (fun _ => k))
  (at level 61, right associativity).

(** [try: m  except <catches>: handler]. *)
Definition try_except {A : Type} (catches : exn -> bool)
    (m : M A) (handler : exn -> M A) : M A :=
  fun s =>
    match m s with
    | (Ok a, s') => (Ok a, s')
    | (Raise e, s') => if catches e then handler e s' else (Raise e, s')
    end.

(** [try: m  finally: cleanup]: the cleanup runs on every exit, and an
    exception of the cleanup replaces the outcome of [m]. *)
Definition try_finally {A : Type} (m : M A) (cleanup : M unit) : M A :=
  fun s =>
    match m s with
    | (r, s') =>
        match cleanup s' with
        | (Ok _, s'') => (r, s'')
        | (Raise e, s'') => (Raise e, s'')
        end
    end.

(** *** Delivery of responses to the listeners *)

Definition registered (h : nat) (s : Session W) : bool :=
  existsb (Nat.eqb h) (listeners s).

(** One response is handed to every registered handler. *)
Definition deliver (s : Session W) (r : Response) : Session W :=
  mkSession (world s) (listeners s)
    (fun h => if registered h s then handle_response r (cells s h) else cells s h)
    (calls s).

Definition dispatch (rs : list Response) (s : Session W) : Session W :=
  fold_left deliver rs s.

(** An awaited session operation: it is logged, the browser runs it, and
    the responses of the meantime reach the listeners. *)
Definition await {A : Type} (c : Call) (op : Awaited W A) : M A :=
  fun s =>
    match op (world s) with
    | ((rs, r), w') =>
        (r, dispatch rs (mkSession w' (listeners s) (cells s) (c :: calls s)))
    end.

(** *** Session operations *)

Definition page_goto (target wait_until : string) (timeout_ms : float) : M unit :=
  await (goto_call target wait_until timeout_ms)
        (br_goto br target wait_until timeout_ms).

(** [await expect(page.locator(selector).first).to_be_visible(timeout=...)]. *)
Definition expect_to_be_visible (selector : string) (timeout_ms : float) : M unit :=
  await (to_be_visible_call selector timeout_ms)
        (br_to_be_visible br selector timeout_ms).

(** [await page.locator(selector).count()]. *)
Definition locator_count (selector : string) : M nat :=
  await (count_call selector) (br_count br selector).

(** [await page.locator(selector).first.get_attribute(name)]. *)
Definition first_get_attribute (selector name : string) : M (option string) :=
  await (get_attribute_call selector name) (br_get_attribute br selector name).

Definition page_content : M string :=
  await content_call (br_content br).

Definition page_wait_for_load_state (state : string) (timeout_ms : float) : M unit :=
  await (wait_for_load_state_call state timeout_ms)
        (br_wait_for_load_state br state timeout_ms).

(** The [async def handle_response] statement: a new closure over
    [api_response_data = None] and a new event.  The closure is a new
    object, so it is none of the listeners of the page. *)
Definition fresh_handler (s : Session W) : nat := S (list_max (listeners s)).

Definition def_handle_response : M nat :=
  fun s =>
    let h := fresh_handler s in
    (Ok h,
     mkSession (world s) (listeners s)
       (fun h' => if Nat.eqb h' h then new_cell else cells s h')
       (calls s)).

(** [page.on("response", h)]: the listeners of an event are keyed by the
    handler, in order of registration. *)
Definition page_on (event : string) (h : nat) : M unit :=
  fun s =>
    (Ok tt,
     mkSession (world s)
       (if registered h s then listeners s else (listeners s ++ [h])%list)
       (cells s)
       (page_on_call event h :: calls s)).

(** [page.remove_listener("response", h)]: removing a handler that is not
    registered raises [KeyError]. *)
Definition page_remove_listener (event : string) (h : nat) : M unit :=
  fun s =>
    let s' :=
      mkSession (world s)
        (filter (fun h' => negb (Nat.eqb h' h)) (listeners s))
        (cells s)
        (page_remove_listener_call event h :: calls s) in
    if registered h s then (Ok tt, s')
    else (Raise (KeyError "handle_response"),
          mkSession (world s) (listeners s) (cells s)
            (page_remove_listener_call event h :: calls s)).

(** [await asyncio.wait_for(response_received.wait(), timeout=timeout)]:
    the event loop runs, delivering responses, until the event of the
    closure [h] is set or the bound is over; in the second case
    [asyncio.TimeoutError] is raised.  With a bound that is not positive
    the wait is cancelled before it looks at the event, and
    [asyncio.TimeoutError] is raised whether the event is set or not. *)
Definition wait_for_response_received (h : nat) (timeout : float) : M unit :=
  fun s =>
    match br_event_loop br timeout (world s) with
    | (rs, w') =>
        let s' :=
          dispatch rs
            (mkSession w' (listeners s) (cells s) (wait_for_call timeout :: calls s)) in
        if (timeout <=? 0)%float then (Raise AsyncioTimeoutError, s')
        else if response_received (cells s' h) then (Ok tt, s')
        else (Raise AsyncioTimeoutError, s')
    end.

(** Reading the closure variable [api_response_data]. *)
Definition get_api_response_data (h : nat) : M (option string) :=
  fun s => (Ok (api_response_data (cells s h)), s).

(** *** Specifications of computations *)

(** What a computation may do to the session besides moving the world and
    filling closure cells: it leaves the listeners as they are and adds to
    the log only calls that satisfy [P]. *)
Definition frame (P : Call -> Prop) (s s' : Session W) : Prop :=
  listeners s' = listeners s /\
  exists new, calls s' = (new ++ calls s)%list /\ Forall P new.

(** From every session, [m] stays within [frame P], returns only values
    that satisfy [Q] and raises only exceptions that satisfy [E]. *)
Definition triple {A : Type} (P : Call -> Prop) (m : M A)
    (Q : A -> Prop) (E : exn -> Prop) : Prop :=
  forall s,
    frame P s (snd (m s)) /\
    match fst (m s) with
    | Ok a => Q a
    | Raise e => E e
    end.

(** *** Login detection *)

(** The loop over [avatar_selectors]: the first locator that becomes
    visible returns [True]; a failure moves on to the next one. *)
Fixpoint avatar_loop (timeout : float) (selectors : list string) : M bool :=
  match selectors with
  | [] => ret false
  | selector :: rest =>
      try_except is_Exception
        (expect_to_be_visible selector (timeout * 1000)%float ;;; ret true)
        (fun _ => avatar_loop timeout rest)
  end.

Definition check_google_login_by_avatar (timeout : float) : M bool :=
  try_except is_Exception
    (page_goto accounts_url "domcontentloaded" (timeout * 1000)%float ;;;
     avatar_loop timeout avatar_selectors)
    (fun _ => ret false).

(** [page.url], a property of the page: reading it awaits nothing. *)
Definition page_url : M string :=
  fun s => (br_url br (world s), s).

Definition is_on_login_page : M bool :=
  try_except is_Exception
    (current_url <- page_url ;;
     ret (existsb (fun indicator => str_in indicator current_url) login_indicators))
    (fun _ => ret false).

(** *** The evidence extractor *)

Definition _extract_sheerid_link : M (option string) :=
  let from_content : M (option string) :=
    content <- page_content ;;
    match re_search_sheerid content with
    | Some href => ret (Some href)
    | None => ret None
    end in
  try_except is_Exception
    (n <- locator_count sheerid_selector ;;
     if (0 <? n)%nat then
       href <- first_get_attribute sheerid_selector "href" ;;
       match href with
       | Some link => if truthy link then ret (Some link) else from_content
       | None => from_content
       end
     else from_content)
    (fun _ => ret None).

(** *** The DOM fallback classifier *)

(** Rule 4, the loop over [offer_selectors]: the [try] holds the count
    of one locator and its comparison with 0, and its [except] goes on to
    the next locator.  Rule 5 when the loop is exhausted. *)
Fixpoint offer_loop (selectors : list string) : M (Status * option string) :=
  match selectors with
  | [] => ret (STATUS_INELIGIBLE, None)
  | selector :: rest =>
      found <- try_except is_Exception
                 (n <- locator_count selector ;; ret (0 <? n)%nat)
                 (fun _ => ret false) ;;
      if found then ret (STATUS_VERIFIED, None) else offer_loop rest
  end.

(** Truthiness of an [Optional[str]]. *)
Definition truthy_opt (o : option string) : bool :=
  match o with
  | Some link => truthy link
  | None => false
  end.

Definition _detect_page_elements : M (Status * option string) :=
  try_except is_Exception
    (n1 <- locator_count link_ready_selector ;;
     if (0 <? n1)%nat then
       sheerid_link <- _extract_sheerid_link ;;
       ret (STATUS_LINK_READY, sheerid_link)
     else
       n2 <- locator_count verified_selector ;;
       if (0 <? n2)%nat then ret (STATUS_VERIFIED, None)
       else
         sheerid_link <- _extract_sheerid_link ;;
         if truthy_opt sheerid_link then ret (STATUS_LINK_READY, sheerid_link)
         else offer_loop offer_selectors)
    (fun _ => ret (STATUS_INELIGIBLE, None)).

(** *** The qualification check *)

(** The classification stage: the captured payload first, the page
    elements when there is none or it gives no signal. *)
Definition classify (h : nat) : M (Status * option string) :=
  data <- get_api_response_data h ;;
  match data with
  | Some body =>
      if truthy body then
        match _parse_api_response body with
        | Some status => ret (status, None)
        | None => _detect_page_elements
        end
      else _detect_page_elements
  | None => _detect_page_elements
  end.

(** The body of the [try] of [check_google_one_status_v2]. *)
Definition check_body (h : nat) (timeout : float) : M (Status * option string) :=
  page_goto one_url "domcontentloaded" (timeout * 1000)%float ;;;
  try_except is_asyncio_TimeoutError
    (wait_for_response_received h timeout)
    (fun _ => ret tt) ;;;
  page_wait_for_load_state "networkidle" 10000%float ;;;
  classify h.

Definition check_google_one_status_v2 (timeout : float) : M (Status * option string) :=
  h <- def_handle_response ;;
  page_on "response" h ;;;
  try_finally
    (try_except is_Exception
       (check_body h timeout)
       (fun _ => ret (STATUS_ERROR, None)))
    (page_remove_listener "response" h).

(** The sessions the check goes through: the listener registered, the
    navigation over, the wait for the interceptor over, the wait for the
    quiet network over. *)
Definition armed (s : Session W) : Session W :=
  snd ((h <- def_handle_response ;; page_on "response" h) s).

Definition navigated (timeout : float) (s : Session W) : Session W :=
  snd (page_goto one_url "domcontentloaded" (timeout * 1000)%float (armed s)).

Definition awaited (timeout : float) (s : Session W) : Session W :=
  snd (try_except is_asyncio_TimeoutError
         (wait_for_response_received (fresh_handler s) timeout)
         (fun _ => ret tt) (navigated timeout s)).

Definition settled (timeout : float) (s : Session W) : Session W :=
  snd (page_wait_for_load_state "networkidle" 10000%float (awaited timeout s)).

(** *** The whole detection *)

Definition full_google_detection (timeout : float)
  : M (bool * Status * option string) :=
  is_logged_in <- check_google_login_by_avatar timeout ;;
  if negb is_logged_in then ret (false, STATUS_NOT_LOGGED_IN, None)
  else
    r <- check_google_one_status_v2 timeout ;;
    ret (true, fst r, snd r).

End Detector.

Arguments M : clear implicits.

(** ** Kinds of calls *)

Definition any_call (c : Call) : Prop := True.

(** The calls of the login detector: the navigation to the account page
    and the visibility waits. *)
Definition login_call (c : Call) : Prop :=
  match c with
  | goto_call target _ _ => target = accounts_url
  | to_be_visible_call _ _ => True
  | _ => False
  end.

(** The two calls that change the listeners of the page. *)
Definition listener_call (c : Call) : bool :=
  match c with
  | page_on_call _ _ => true
  | page_remove_listener_call _ _ => true
  | _ => false
  end.

(** ** Well-formed results *)

(** An evidence link, when there is one, is a non-empty string and comes
    with the status [link_ready]. *)
Definition evidence_ok (r : Status * option string) : Prop :=
  forall link, snd r = Some link ->
    fst r = STATUS_LINK_READY /\ truthy link = true.

(** What the DOM classifier can answer. *)
Definition dom_result (r : Status * option string) : Prop :=
  (fst r = STATUS_LINK_READY \/
   r = (STATUS_VERIFIED, None) \/
   r = (STATUS_INELIGIBLE, None)) /\
  evidence_ok r.

(** What the classification stage can answer: one of the two subscribed
    statuses without evidence, or an answer of the DOM classifier. *)
Definition classified (r : Status * option string) : Prop :=
  r = (STATUS_SUBSCRIBED_ANTIGRAVITY, None) \/
  r = (STATUS_SUBSCRIBED, None) \/
  dom_result r.

(** ** Scripted pages

    A page whose answers do not depend on the moment they are asked: the
    browser of the examples. *)

Record Page : Type := mkPage {
  pg_url : string;
  pg_goto : string -> res unit;
  pg_goto_responses : string -> list Response;
  pg_visible : string -> res unit;
  pg_count : string -> res nat;
  pg_href : string -> res (option string);
  pg_content : res string;
  pg_loop_responses : list Response;
  pg_load_state : res unit;
  pg_load_state_responses : list Response
}.

Definition scripted (p : Page) : Browser unit :=
  {| br_url := fun _ => Ok (pg_url p);
     br_goto := fun target _ _ w => ((pg_goto_responses p target, pg_goto p target), w);
     br_to_be_visible := fun selector _ w => (([], pg_visible p selector), w);
     br_count := fun selector w => (([], pg_count p selector), w);
     br_get_attribute := fun selector _ w => (([], pg_href p selector), w);
     br_content := fun w => (([], pg_content p), w);
     br_event_loop := fun _ w => (pg_loop_responses p, w);
     br_wait_for_load_state :=
       fun _ _ w => ((pg_load_state_responses p, pg_load_state p), w) |}.

(** A session on which nothing has happened yet. *)
Definition initial_session : Session unit :=
  mkSession tt [] (fun _ => new_cell) [].

(** The backend call the interceptor looks for, with a given body. *)
Definition rpc_response (body : string) : Response :=
  {| url := "https://one.google.com/_/batchexecute?rpcids=GI6Jdd&rt=c";
     text := Ok body |}.

(** A page of a logged-in account that shows nothing of interest: every
    navigation and wait succeeds, the first avatar locator is visible, no
    locator matches, the markup is empty and no response is seen. *)
Definition blank_page : Page :=
  {| pg_url := one_url;
     pg_goto := fun _ => Ok tt;
     pg_goto_responses := fun _ => [];
     pg_visible := fun _ => Ok tt;
     pg_count := fun _ => Ok 0;
     pg_href := fun _ => Ok None;
     pg_content := Ok "";
     pg_loop_responses := [];
     pg_load_state := Ok tt;
     pg_load_state_responses := [] |}.

(** A verification link as the provider hands it out. *)
Definition sample_link : string :=
  "https://services.sheerid.com/verify/67c8c14f5f17a83b745e3f82/?verificationId=1".

(** Both structural markers are on the page, and an anchor carries the
    verification link. *)
Definition both_markers_page : Page :=
  {| pg_url := one_url;
     pg_goto := fun _ => Ok tt;
     pg_goto_responses := fun _ => [];
     pg_visible := fun _ => Ok tt;
     pg_count := fun _ => Ok 1;
     pg_href := fun _ => Ok (Some sample_link);
     pg_content := Ok "";
     pg_loop_responses := [];
     pg_load_state := Ok tt;
     pg_load_state_responses := [] |}.

(** The marker of a pending verification is on the page, but no anchor
    and no text of the markup holds a verification link. *)
Definition pending_without_link_page : Page :=
  {| pg_url := one_url;
     pg_goto := fun _ => Ok tt;
     pg_goto_responses := fun _ => [];
     pg_visible := fun _ => Ok tt;
     pg_count := fun selector =>
       if String.eqb selector link_ready_selector then Ok 1 else Ok 0;
     pg_href := fun _ => Ok None;
     pg_content := Ok "<html><body><div jsname=hSRGPd></div></body></html>";
     pg_loop_responses := [];
     pg_load_state := Ok tt;
     pg_load_state_responses := [] |}.

(** No avatar becomes visible: the account is not logged in. *)
Definition signed_out_page : Page :=
  {| pg_url := "https://accounts.google.com/v3/signin/identifier?continue=https%3A%2F%2Fone.google.com";
     pg_goto := fun _ => Ok tt;
     pg_goto_responses := fun _ => [rpc_response "2 TB"];
     pg_visible := fun _ => Raise (AssertionError "Locator expected to be visible");
     pg_count := fun _ => Ok 1;
     pg_href := fun _ => Ok (Some sample_link);
     pg_content := Ok "";
     pg_loop_responses := [];
     pg_load_state := Ok tt;
     pg_load_state_responses := [] |}.

(** The backend call is answered twice while the page loads: first with
    a payload of a subscribed account, then with an empty list. *)
Definition two_answers_page : Page :=
  {| pg_url := one_url;
     pg_goto := fun _ => Ok tt;
     pg_goto_responses := fun _ => [rpc_response "[[2 TB]]"; rpc_response "[]"];
     pg_visible := fun _ => Ok tt;
     pg_count := fun _ => Ok 0;
     pg_href := fun _ => Ok None;
     pg_content := Ok "";
     pg_loop_responses := [];
     pg_load_state := Ok tt;
     pg_load_state_responses := [] |}.

(** The backend call is answered during the navigation with the payload
    of a subscribed account, and the network never becomes quiet. *)
Definition never_idle_page : Page :=
  {| pg_url := one_url;
     pg_goto := fun _ => Ok tt;
     pg_goto_responses := fun _ => [rpc_response "[[2 TB]]"];
     pg_visible := fun _ => Ok tt;
     pg_count := fun _ => Ok 0;
     pg_href := fun _ => Ok None;
     pg_content := Ok "";
     pg_loop_responses := [];
     pg_load_state := Raise (PlaywrightTimeoutError "Timeout 10000ms exceeded.");
     pg_load_state_responses := [] |}.

(** The navigation does not reach the document in time. *)
Definition slow_navigation_page : Page :=
  {| pg_url := one_url;
     pg_goto := fun _ => Raise (PlaywrightTimeoutError "Timeout 20000ms exceeded.");
     pg_goto_responses := fun _ => [];
     pg_visible := fun _ => Ok tt;
     pg_count := fun _ => Ok 1;
     pg_href := fun _ => Ok (Some sample_link);
     pg_content := Ok "";
     pg_loop_responses := [];
     pg_load_state := Ok tt;
     pg_load_state_responses := [] |}.

(** The backend call is never seen: the wait for the interceptor runs
    into its bound.  The page shows the marker of a verified account. *)
Definition silent_verified_page : Page :=
  {| pg_url := one_url;
     pg_goto := fun _ => Ok tt;
     pg_goto_responses := fun _ => [];
     pg_visible := fun _ => Ok tt;
     pg_count := fun selector =>
       if String.eqb selector verified_selector then Ok 1 else Ok 0;
     pg_href := fun _ => Ok None;
     pg_content := Ok "";
     pg_loop_responses := [];
     pg_load_state := Ok tt;
     pg_load_state_responses := [] |}.

(** Counting the marker of a pending verification fails, while the marker
    of a verified account is on the page. *)
Definition broken_count_page : Page :=
  {| pg_url := one_url;
     pg_goto := fun _ => Ok tt;
     pg_goto_responses := fun _ => [];
     pg_visible := fun _ => Ok tt;
     pg_count := fun selector =>
       if String.eqb selector link_ready_selector
       then Raise (PlaywrightError "Execution context was destroyed")
       else Ok 1;
     pg_href := fun _ => Ok None;
     pg_content := Ok "";
     pg_loop_responses := [];
     pg_load_state := Ok tt;
     pg_load_state_responses := [] |}.

(** ** The label table *)

(** [STATUS_DISPLAY], a dict literal with pairwise distinct keys, as the
    list of its items in the order of the source. *)
Definition STATUS_DISPLAY : list (string * string) :=
  [ (status_str STATUS_PENDING, "❔待检测");
    (status_str STATUS_NOT_LOGGED_IN, "🔒未登录");
    (status_str STATUS_INELIGIBLE, "❌无资格");
    (status_str STATUS_LINK_READY, "🔗待验证");
    (status_str STATUS_VERIFIED, "✅已验证");
    (status_str STATUS_SUBSCRIBED, "👑已订阅");
    (status_str STATUS_SUBSCRIBED_ANTIGRAVITY, "🌟已解锁");
    (status_str STATUS_ERROR, "⚠️错误") ].

(** [d.get(key)]: the value of the item with that key, [None] when the
    dict has no such key (where [d[key]] raises [KeyError]). *)
Fixpoint dict_get (d : list (string * string)) (key : string) : option string :=
  match d with
  | [] => None
  | (k, v) :: rest => if String.eqb k key then Some v else dict_get rest key
  end.

(** A call that leaves the listeners of the page alone. *)
Definition quiet_call (c : Call) : Prop := listener_call c = false.

(** ** Logs of loops *)

(** The visibility waits on a list of selectors, and the counts. *)
Definition visible_calls (timeout : float) (selectors : list string) : list Call :=
  map (fun selector => to_be_visible_call selector (timeout * 1000)%float) selectors.

Definition count_calls (selectors : list string) : list Call :=
  map count_call selectors.

(** No character of [s] is a double or a single quote. *)
Fixpoint no_quote (s : string) : bool :=
  match s with
  | EmptyString => true
  | String c s' => not_quote c && no_quote s'
  end.

Section Windows.

Context {W : Type} (br : Browser W).

(** The responses delivered during the three waits of the check, in the
    order of their delivery. *)
Definition seen (timeout : float) (s : Session W) : list Response :=
  (fst (fst (br_goto br one_url "domcontentloaded" (timeout * 1000)%float
               (world (armed s))))
   ++ fst (br_event_loop br timeout (world (navigated br timeout s)))
   ++ fst (fst (br_wait_for_load_state br "networkidle" 10000%float
                  (world (awaited br timeout s)))))%list.

End Windows.

(** No marker and no anchor on the page, but the markup quotes a
    verification link. *)
Definition link_in_markup_page : Page :=
  {| pg_url := one_url;
     pg_goto := fun _ => Ok tt;
     pg_goto_responses := fun _ => [];
     pg_visible := fun _ => Ok tt;
     pg_count := fun _ => Ok 0;
     pg_href := fun _ => Ok None;
     pg_content := Ok ("<script>var u = " ++ quoted sample_link ++ ";</script>");
     pg_loop_responses := [];
     pg_load_state := Ok tt;
     pg_load_state_responses := [] |}.

(** An anchor matches, reading its attribute fails, and the markup quotes
    a verification link. *)
Definition broken_href_page : Page :=
  {| pg_url := one_url;
     pg_goto := fun _ => Ok tt;
     pg_goto_responses := fun _ => [];
     pg_visible := fun _ => Ok tt;
     pg_count := fun _ => Ok 1;
     pg_href := fun _ => Raise (PlaywrightError "Element is not attached to the DOM");
     pg_content := Ok ("<a href=" ++ quoted sample_link ++ ">Verify</a>");
     pg_loop_responses := [];
     pg_load_state := Ok tt;
     pg_load_state_responses := [] |}.

(** The backend call is answered with the payload of a subscribed
    account, and the page shows both markers and an anchor as well. *)
Definition subscribed_page : Page :=
  {| pg_url := one_url;
     pg_goto := fun _ => Ok tt;
     pg_goto_responses := fun _ => [rpc_response "[[2 TB]]"];
     pg_visible := fun _ => Ok tt;
     pg_count := fun _ => Ok 1;
     pg_href := fun _ => Ok (Some sample_link);
     pg_content := Ok "";
     pg_loop_responses := [];
     pg_load_state := Ok tt;
     pg_load_state_responses := [] |}.

(** The marker of a verified account is on the page together with an
    anchor that carries a verification link; the marker of a pending
    verification is not. *)
Definition verified_with_link_page : Page :=
  {| pg_url := one_url;
     pg_goto := fun _ => Ok tt;
     pg_goto_responses := fun _ => [];
     pg_visible := fun _ => Ok tt;
     pg_count := fun selector =>
       if String.eqb selector link_ready_selector then Ok 0 else Ok 1;
     pg_href := fun _ => Ok (Some sample_link);
     pg_content := Ok "";
     pg_loop_responses := [];
     pg_load_state := Ok tt;
     pg_load_state_responses := [] |}.

(** ** Runs of the two loops *)

Section Runs.

Context {W : Type} (br : Browser W).

(** The session after the visibility waits on [selectors], made one after
    the other. *)
Fixpoint after_waits (timeout : float) (selectors : list string)
    (s : Session W) : Session W :=
  match selectors with
  | [] => s
  | selector :: rest =>
      after_waits timeout rest
        (snd (expect_to_be_visible br selector (timeout * 1000)%float s))
  end.

(** Each of these waits, at the moment it is made, ends in an exception:
    the locator does not become visible. *)
Fixpoint waits_fail (timeout : float) (selectors : list string)
    (s : Session W) : Prop :=
  match selectors with
  | [] => True
  | selector :: rest =>
      (exists e,
         fst (expect_to_be_visible br selector (timeout * 1000)%float s)
           = Raise e) /\
      waits_fail timeout rest
        (snd (expect_to_be_visible br selector (timeout * 1000)%float s))
  end.

(** The session after the counts of [selectors], made one after the
    other. *)
Fixpoint after_counts (selectors : list string) (s : Session W) : Session W :=
  match selectors with
  | [] => s
  | selector :: rest =>
      after_counts rest (snd (locator_count br selector s))
  end.

(** Each of these counts, at the moment it is made, finds nothing: it
    returns 0 or ends in an exception. *)
Fixpoint counts_miss (selectors : list string) (s : Session W) : Prop :=
  match selectors with
  | [] => True
  | selector :: rest =>
      match fst (locator_count br selector s) with
      | Ok n => n = 0
      | Raise _ => True
      end /\
      counts_miss rest (snd (locator_count br selector s))
  end.

(** *** A registration or a removal that fails

    [page.on] is called before the [try] of the check and
    [page.remove_listener] in its [finally]: an exception of either one is
    caught by no handler of the module.  The two operations below take the
    outcome of the call; with the outcome [Ok tt] they are [page_on] and
    [page_remove_listener], with an exception nothing is registered or
    removed and the exception is raised. *)
Definition page_on_with (outcome : res unit) (event : string) (h : nat)
  : M W unit :=
  fun s =>
    match outcome with
    | Ok _ => page_on event h s
    | Raise e =>
        (Raise e,
         mkSession (world s) (listeners s) (cells s)
           (page_on_call event h :: calls s))
    end.

Definition page_remove_listener_with (outcome : res unit) (event : string)
    (h : nat) : M W unit :=
  fun s =>
    match outcome with
    | Ok _ => page_remove_listener event h s
    | Raise e =>
        (Raise e,
         mkSession (world s) (listeners s) (cells s)
           (page_remove_listener_call event h :: calls s))
    end.

(** [check_google_one_status_v2], the outcomes of its calls of [page.on]
    and [page.remove_listener] given. *)
Definition check_google_one_status_v2_with (registration removal : res unit)
    (timeout : float) : M W (Status * option string) :=
  bind def_handle_response (fun h =>
  bind (page_on_with registration "response" h) (fun _ =>
  try_finally
    (try_except is_Exception
       (check_body br h timeout)
       (fun _ => ret (STATUS_ERROR, None)))
    (page_remove_listener_with removal "response" h))).

(** [full_google_detection], likewise. *)
Definition full_google_detection_with (registration removal : res unit)
    (timeout : float) : M W (bool * Status * option string) :=
  bind (check_google_login_by_avatar br timeout) (fun is_logged_in =>
  if negb is_logged_in then ret (false, STATUS_NOT_LOGGED_IN, None)
  else
    bind (check_google_one_status_v2_with registration removal timeout)
      (fun r => ret (true, fst r, snd r))).

End Runs.

(** Only the third avatar locator becomes visible. *)
Definition third_avatar_page : Page :=
  {| pg_url := accounts_url;
     pg_goto := fun _ => Ok tt;
     pg_goto_responses := fun _ => [];
     pg_visible := fun selector =>
       if String.eqb selector ("a[href*=" ++ quoted "SignOutOptions" ++ "] img")
       then Ok tt
       else Raise (AssertionError "Locator expected to be visible");
     pg_count := fun _ => Ok 0;
     pg_href := fun _ => Ok None;
     pg_content := Ok "";
     pg_loop_responses := [];
     pg_load_state := Ok tt;
     pg_load_state_responses := [] |}.

(** No avatar locator becomes visible, while the page itself is. *)
Definition no_avatar_page : Page :=
  {| pg_url := accounts_url;
     pg_goto := fun _ => Ok tt;
     pg_goto_responses := fun _ => [];
     pg_visible := fun selector =>
       if String.eqb selector "body" then Ok tt
       else Raise (AssertionError "Locator expected to be visible");
     pg_count := fun _ => Ok 0;
     pg_href := fun _ => Ok None;
     pg_content := Ok "";
     pg_loop_responses := [];
     pg_load_state := Ok tt;
     pg_load_state_responses := [] |}.

(** The first offer locator fails, the second matches. *)
Definition second_offer_page : Page :=
  {| pg_url := one_url;
     pg_goto := fun _ => Ok tt;
     pg_goto_responses := fun _ => [];
     pg_visible := fun _ => Ok tt;
     pg_count := fun selector =>
       if String.eqb selector ("button:has-text(" ++ quoted "Get student offer" ++ ")")
       then Raise (PlaywrightError "Unexpected token while parsing selector")
       else if String.eqb selector ("button:has-text(" ++ quoted "Get offer" ++ ")")
       then Ok 2
       else Ok 0;
     pg_href := fun _ => Ok None;
     pg_content := Ok "";
     pg_loop_responses := [];
     pg_load_state := Ok tt;
     pg_load_state_responses := [] |}.

(** * Properties *)

(** ** Substring tests *)

Lemma startswith_app (p post : string) : startswith p (p ++ post) = true.
Proof.
  induction p as [|a p IH]; simpl.
  - reflexivity.
  - rewrite Ascii.eqb_refl. exact IH.
Qed.

Lemma startswith_inv (p s : string) :
  startswith p s = true -> exists post, s = p ++ post.
Proof.
  revert s. induction p as [|a p IH]; intros s H.
  - exists s. reflexivity.
  - destruct s as [|b s]; simpl in H; [discriminate|].
    apply andb_true_iff in H. destruct H as [Hab Hrest].
    apply Ascii.eqb_eq in Hab. subst b.
    destruct (IH s Hrest) as [post ->].
    exists post. reflexivity.
Qed.

(** [str_in] decides [Contains]. *)
Lemma str_in_spec (sub s : string) : str_in sub s = true <-> Contains sub s.
Proof.
  split.
  - induction s as [|c s IH]; simpl; intro H.
    + rewrite orb_false_r in H.
      destruct (startswith_inv _ _ H) as [post Hpost].
      exists "", post. exact Hpost.
    + apply orb_true_iff in H. destruct H as [H | H].
      * destruct (startswith_inv _ _ H) as [post Hpost].
        exists "", post. exact Hpost.
      * destruct (IH H) as (pre & post & ->).
        exists (String c pre), post. reflexivity.
  - intros (pre & post & ->).
    induction pre as [|c pre IH].
    + simpl append at 1.
      destruct (sub ++ post) eqn:Heq; simpl.
      * rewrite <- Heq at 1. destruct sub; [reflexivity | discriminate].
      * rewrite <- Heq. rewrite startswith_app. reflexivity.
    + simpl. rewrite IH. apply orb_true_r.
Qed.

Lemma str_in_false (sub s : string) : str_in sub s = false <-> ~ Contains sub s.
Proof.
  rewrite <- str_in_spec.
  destruct (str_in sub s); split; intro H; congruence.
Qed.

(** The disjunction of the [in] tests over a list of spellings. *)
Lemma existsb_str_in (markers : list string) (body : string) :
  existsb (fun m => str_in m body) markers = true <-> HasMarker markers body.
Proof.
  unfold HasMarker. rewrite existsb_exists.
  split; intros (m & Hin & H); exists m; split; auto; apply str_in_spec; exact H.
Qed.

Lemma parse_api_response_eq (body : string) :
  _parse_api_response body =
  if existsb (fun m => str_in m body) high_tier_markers then
    if existsb (fun m => str_in m body) unlock_markers
    then Some STATUS_SUBSCRIBED_ANTIGRAVITY
    else Some STATUS_SUBSCRIBED
  else None.
Proof.
  unfold _parse_api_response, high_tier_markers, unlock_markers. simpl.
  rewrite !orb_false_r, !orb_assoc. reflexivity.
Qed.

(** C1. For every payload, [_parse_api_response] gives
    [subscribed_antigravity] when the payload contains one of the spellings
    of the storage marker and one of the unlock marker, [subscribed] when it
    contains a storage marker and no unlock marker, and no status when it
    contains no storage marker, whether the unlock marker is there or not. *)
Theorem parse_api_response_classifies (body : string) :
  (HasMarker high_tier_markers body -> HasMarker unlock_markers body ->
   _parse_api_response body = Some STATUS_SUBSCRIBED_ANTIGRAVITY) /\
  (HasMarker high_tier_markers body -> ~ HasMarker unlock_markers body ->
   _parse_api_response body = Some STATUS_SUBSCRIBED) /\
  (~ HasMarker high_tier_markers body -> _parse_api_response body = None).
Proof.
  rewrite parse_api_response_eq.
  pose proof (existsb_str_in high_tier_markers body) as Hh.
  pose proof (existsb_str_in unlock_markers body) as Hu.
  destruct (existsb (fun m => str_in m body) high_tier_markers);
  destruct (existsb (fun m => str_in m body) unlock_markers);
  intuition congruence.
Qed.

(** ** Rules for computations *)

Section Rules.

Context {W : Type} (br : Browser W).

Lemma frame_refl (P : Call -> Prop) (s : Session W) : frame P s s.
Proof.
  split; [reflexivity|]. exists []. split; [reflexivity | constructor].
Qed.

Lemma frame_trans (P : Call -> Prop) (s1 s2 s3 : Session W) :
  frame P s1 s2 -> frame P s2 s3 -> frame P s1 s3.
Proof.
  intros [L1 (n1 & C1 & F1)] [L2 (n2 & C2 & F2)]. split.
  - congruence.
  - exists (n2 ++ n1)%list. split.
    + rewrite C2, C1. apply app_assoc.
    + apply Forall_app. split; assumption.
Qed.

Lemma frame_weaken (P P' : Call -> Prop) (s s' : Session W) :
  (forall c, P c -> P' c) -> frame P s s' -> frame P' s s'.
Proof.
  intros HP [L (n & C & F)]. split; [exact L|].
  exists n. split; [exact C|]. eapply Forall_impl; eauto.
Qed.

Lemma dispatch_listeners (rs : list Response) (s : Session W) :
  listeners (dispatch rs s) = listeners s.
Proof.
  unfold dispatch. revert s.
  induction rs as [|r rs IH]; intro s; simpl; [reflexivity|].
  rewrite IH. reflexivity.
Qed.

Lemma dispatch_calls (rs : list Response) (s : Session W) :
  calls (dispatch rs s) = calls s.
Proof.
  unfold dispatch. revert s.
  induction rs as [|r rs IH]; intro s; simpl; [reflexivity|].
  rewrite IH. reflexivity.
Qed.

Lemma dispatch_world (rs : list Response) (s : Session W) :
  world (dispatch rs s) = world s.
Proof.
  unfold dispatch. revert s.
  induction rs as [|r rs IH]; intro s; simpl; [reflexivity|].
  rewrite IH. reflexivity.
Qed.

Lemma triple_ret {A : Type} (P : Call -> Prop) (a : A)
    (Q : A -> Prop) (E : exn -> Prop) :
  Q a -> triple (W:=W) P (ret a) Q E.
Proof.
  intros HQ s. simpl. split; [apply frame_refl | exact HQ].
Qed.

Lemma triple_bind {A B : Type} (P : Call -> Prop) (m : M W A) (k : A -> M W B)
    (Q0 : A -> Prop) (Q : B -> Prop) (E : exn -> Prop) :
  triple P m Q0 E ->
  (forall a, Q0 a -> triple P (k a) Q E) ->
  triple P (bind m k) Q E.
Proof.
  intros Hm Hk s. unfold bind.
  destruct (Hm s) as [Hf Hr].
  destruct (m s) as [[a|e] s1]; simpl in *.
  - destruct (Hk a Hr s1) as [Hf' Hr'].
    split; [eapply frame_trans; eauto | exact Hr'].
  - split; assumption.
Qed.

Lemma triple_try_except {A : Type} (P : Call -> Prop) (catches : exn -> bool)
    (m : M W A) (handler : exn -> M W A)
    (Q : A -> Prop) (E0 E : exn -> Prop) :
  triple P m Q E0 ->
  (forall e, E0 e -> catches e = true -> triple P (handler e) Q E) ->
  (forall e, E0 e -> catches e = false -> E e) ->
  triple P (try_except catches m handler) Q E.
Proof.
  intros Hm Hh Hpass s. unfold try_except.
  destruct (Hm s) as [Hf Hr].
  destruct (m s) as [[a|e] s1]; simpl in *.
  - split; assumption.
  - destruct (catches e) eqn:Hc.
    + destruct (Hh e Hr Hc s1) as [Hf' Hr'].
      split; [eapply frame_trans; eauto | exact Hr'].
    + split; [exact Hf | apply Hpass; assumption].
Qed.

Lemma triple_weaken {A : Type} (P P' : Call -> Prop) (m : M W A)
    (Q Q' : A -> Prop) (E E' : exn -> Prop) :
  triple P m Q E ->
  (forall c, P c -> P' c) ->
  (forall a, Q a -> Q' a) ->
  (forall e, E e -> E' e) ->
  triple P' m Q' E'.
Proof.
  intros Hm HP HQ HE s. destruct (Hm s) as [Hf Hr]. split.
  - eapply frame_weaken; eauto.
  - destruct (fst (m s)); auto.
Qed.

Lemma frame_await {A : Type} (P : Call -> Prop) (c : Call) (op : Awaited W A)
    (s : Session W) :
  P c -> frame P s (snd (await c op s)).
Proof.
  intro Hc. unfold await.
  destruct (op (world s)) as [[rs r] w1]. simpl. split.
  - rewrite dispatch_listeners. reflexivity.
  - exists [c]. rewrite dispatch_calls. split; [reflexivity|].
    constructor; [exact Hc | constructor].
Qed.

Lemma triple_await {A : Type} (P : Call -> Prop) (c : Call) (op : Awaited W A) :
  P c -> triple P (await c op) (fun _ => True) (fun _ => True).
Proof.
  intros Hc s. split; [apply frame_await; exact Hc|].
  destruct (fst (await c op s)); exact I.
Qed.

Lemma triple_wait_for (P : Call -> Prop) (h : nat) (timeout : float) :
  P (wait_for_call timeout) ->
  triple P (wait_for_response_received br h timeout)
    (fun _ => True) (fun e => e = AsyncioTimeoutError).
Proof.
  intros Hc s. unfold wait_for_response_received.
  destruct (br_event_loop br timeout (world s)) as [rs w1].
  (destruct (timeout <=? 0)%float;
   [|match goal with
     | |- context [response_received ?c] =>
         destruct (response_received c)
     end]); simpl.
  all: split; [|auto].
  all: split; [rewrite dispatch_listeners; reflexivity|].
  all: exists [wait_for_call timeout]; rewrite dispatch_calls.
  all: split; [reflexivity | constructor; [exact Hc | constructor]].
Qed.

End Rules.

(** ** The components *)

Section Components.

Context {W : Type} (br : Browser W).

Lemma re_search_sheerid_eq (content : string) :
  re_search_sheerid content =
  match
    (if startswith "https://" content then
       if str_in "sheerid.com" (take_while not_quote (drop 8 content))
       then Some ("https://" ++ take_while not_quote (drop 8 content))
       else None
     else None)
  with
  | Some m => Some m
  | None =>
      match content with
      | EmptyString => None
      | String _ rest => re_search_sheerid rest
      end
  end.
Proof. destruct content; reflexivity. Qed.

Lemma re_search_sheerid_truthy (content link : string) :
  re_search_sheerid content = Some link -> truthy link = true.
Proof.
  induction content as [|c content IH]; rewrite re_search_sheerid_eq.
  - simpl. discriminate.
  - destruct (startswith "https://" (String c content)).
    + destruct (str_in "sheerid.com" _).
      * intro H. injection H as <-. reflexivity.
      * exact IH.
    + exact IH.
Qed.

(** The login detector navigates to the account page, waits for avatars,
    and always returns a boolean. *)
Lemma avatar_loop_spec (timeout : float) (selectors : list string) :
  triple login_call (avatar_loop br timeout selectors)
    (fun _ => True) (fun _ => False).
Proof.
  induction selectors as [|selector rest IH]; simpl.
  - apply triple_ret. exact I.
  - apply triple_try_except with (E0 := fun _ => True).
    + eapply triple_bind.
      * apply triple_await. exact I.
      * intros _ _. apply triple_ret. exact I.
    + intros e _ _. exact IH.
    + intros e _ H. discriminate H.
Qed.

Lemma check_google_login_by_avatar_spec (timeout : float) :
  triple login_call (check_google_login_by_avatar br timeout)
    (fun _ => True) (fun _ => False).
Proof.
  unfold check_google_login_by_avatar.
  apply triple_try_except with (E0 := fun _ => True).
  - eapply triple_bind.
    + apply triple_await. reflexivity.
    + intros _ _. eapply triple_weaken.
      * apply avatar_loop_spec.
      * auto.
      * auto.
      * intros e [].
  - intros e _ _. apply triple_ret. exact I.
  - intros e _ H. discriminate H.
Qed.

(** The evidence extractor never raises, and a link it returns is not
    empty. *)
Lemma extract_sheerid_link_spec :
  triple any_call (_extract_sheerid_link br)
    (fun o => forall link, o = Some link -> truthy link = true)
    (fun _ => False).
Proof.
  unfold _extract_sheerid_link. cbv zeta.
  assert (Hcontent :
    triple any_call
      (bind (page_content br)
         (fun content =>
            match re_search_sheerid content with
            | Some href => ret (Some href)
            | None => ret None
            end))
      (fun o => forall link, o = Some link -> truthy link = true)
      (fun _ => True)).
  { eapply triple_bind.
    - apply triple_await. exact I.
    - intros content _.
      destruct (re_search_sheerid content) as [href|] eqn:Hre;
        apply triple_ret.
      + intros link H. injection H as <-.
        eapply re_search_sheerid_truthy; eauto.
      + discriminate. }
  apply triple_try_except with (E0 := fun _ => True).
  - eapply triple_bind.
    + apply triple_await. exact I.
    + intros n _. destruct (0 <? n)%nat; [|exact Hcontent].
      eapply triple_bind.
      * apply triple_await. exact I.
      * intros [link|] _; [|exact Hcontent].
        destruct (truthy link) eqn:Ht; [|exact Hcontent].
        apply triple_ret. intros l H. injection H as <-. exact Ht.
  - intros e _ _. apply triple_ret. discriminate.
  - intros e _ H. discriminate H.
Qed.

Lemma offer_loop_spec (selectors : list string) :
  triple any_call (offer_loop br selectors)
    (fun r => r = (STATUS_VERIFIED, None) \/ r = (STATUS_INELIGIBLE, None))
    (fun _ => False).
Proof.
  induction selectors as [|selector rest IH]; simpl.
  - apply triple_ret. right. reflexivity.
  - eapply triple_bind with (Q0 := fun _ => True).
    + apply triple_try_except with (E0 := fun _ => True).
      * eapply triple_bind.
        -- apply triple_await. exact I.
        -- intros n _. apply triple_ret. exact I.
      * intros e _ _. apply triple_ret. exact I.
      * intros e _ H. discriminate H.
    + intros found _. destruct found.
      * apply triple_ret. left. reflexivity.
      * exact IH.
Qed.

(** The DOM classifier never raises and answers [link_ready], [verified]
    or [ineligible]; only [link_ready] can carry a link. *)
Lemma detect_page_elements_spec :
  triple any_call (_detect_page_elements br) dom_result (fun _ => False).
Proof.
  unfold _detect_page_elements.
  assert (Hextract :
    triple any_call (_extract_sheerid_link br)
      (fun o => forall link, o = Some link -> truthy link = true)
      (fun _ => True)).
  { eapply triple_weaken; [apply extract_sheerid_link_spec | auto | auto | intros e []]. }
  apply triple_try_except with (E0 := fun _ => True).
  - eapply triple_bind; [apply triple_await; exact I|].
    intros n1 _. destruct (0 <? n1)%nat.
    + eapply triple_bind; [exact Hextract|].
      intros o Ho. apply triple_ret. split.
      * left. reflexivity.
      * intros link H. simpl in *. split; [reflexivity | auto].
    + eapply triple_bind; [apply triple_await; exact I|].
      intros n2 _. destruct (0 <? n2)%nat.
      * apply triple_ret. split; [right; left; reflexivity|].
        intros link H. discriminate H.
      * eapply triple_bind; [exact Hextract|].
        intros o Ho. destruct (truthy_opt o) eqn:Ht.
        -- apply triple_ret. split; [left; reflexivity|].
           intros link H. simpl in *. split; [reflexivity | auto].
        -- eapply triple_weaken;
             [apply offer_loop_spec | auto | | intros e []].
           intros r [-> | ->]; (split; [auto | intros link H; discriminate H]).
  - intros e _ _. apply triple_ret. split; [right; right; reflexivity|].
    intros link H. discriminate H.
  - intros e _ H. discriminate H.
Qed.

(** The classification stage never raises. *)
Lemma classify_spec (h : nat) :
  triple any_call (classify br h) classified (fun _ => False).
Proof.
  unfold classify.
  assert (Hdom : triple any_call (_detect_page_elements br) classified (fun _ => False)).
  { eapply triple_weaken; [apply detect_page_elements_spec | auto | | auto].
    intros r Hr. right. right. exact Hr. }
  eapply triple_bind with (Q0 := fun _ => True).
  - intro s. simpl. split; [apply frame_refl | exact I].
  - intros [body|] _; [|exact Hdom].
    destruct (truthy body); [|exact Hdom].
    unfold _parse_api_response.
    repeat match goal with
    | |- context [if ?b then _ else _] => destruct b
    end; try exact Hdom; apply triple_ret; [left | right; left]; reflexivity.
Qed.

(** The body of the check stays within the frame; when it returns, it
    returns an answer of the classification stage. *)
Lemma check_body_spec (h : nat) (timeout : float) :
  triple any_call (check_body br h timeout) classified (fun _ => True).
Proof.
  unfold check_body.
  eapply triple_bind; [apply triple_await; exact I|]. intros _ _.
  eapply triple_bind with (Q0 := fun _ => True).
  - apply triple_try_except with (E0 := fun e => e = AsyncioTimeoutError).
    + apply triple_wait_for. exact I.
    + intros e _ _. apply triple_ret. exact I.
    + intros e -> H. discriminate H.
  - intros _ _.
    eapply triple_bind; [apply triple_await; exact I|]. intros _ _.
    eapply triple_weaken; [apply classify_spec | auto | auto | intros e []].
Qed.

End Components.

(** ** The qualification check *)

Section Qualification.

Context {W : Type} (br : Browser W).

Lemma above_not_member (n : nat) (l : list nat) :
  Forall (fun k => k <= n) l -> existsb (Nat.eqb (S n)) l = false.
Proof.
  induction 1 as [|k l Hk _ IH]; cbn [existsb]; [reflexivity|].
  rewrite IH, orb_false_r. apply Nat.eqb_neq. lia.
Qed.

Lemma fresh_not_registered (s : Session W) :
  registered (fresh_handler s) s = false.
Proof.
  unfold registered, fresh_handler.
  apply above_not_member. apply list_max_le. lia.
Qed.

Lemma filter_not_registered (h : nat) (l : list nat) :
  existsb (Nat.eqb h) l = false ->
  filter (fun h' => negb (Nat.eqb h' h)) l = l.
Proof.
  induction l as [|k l IH]; simpl; intro H; [reflexivity|].
  apply orb_false_iff in H. destruct H as [Hk Hl].
  rewrite Nat.eqb_sym, Hk. simpl. rewrite IH; auto.
Qed.

Lemma armed_listeners (s : Session W) :
  listeners (armed s) = (listeners s ++ [fresh_handler s])%list.
Proof.
  pose proof (fresh_not_registered s) as Hfresh.
  unfold armed, bind, def_handle_response, page_on.
  cbn [snd listeners]. unfold registered in *. cbn [listeners].
  rewrite Hfresh. reflexivity.
Qed.

Lemma armed_calls (s : Session W) :
  calls (armed s) = page_on_call "response" (fresh_handler s) :: calls s.
Proof. reflexivity. Qed.

Lemma armed_world (s : Session W) : world (armed s) = world s.
Proof. reflexivity. Qed.

(** The cell of the new closure is empty when the listener is registered. *)
Lemma armed_cell (s : Session W) :
  cells (armed s) (fresh_handler s) = new_cell.
Proof.
  unfold armed, bind, def_handle_response, page_on. simpl.
  rewrite Nat.eqb_refl. reflexivity.
Qed.

Lemma check_unfold (timeout : float) (s : Session W) :
  check_google_one_status_v2 br timeout s =
  try_finally
    (try_except is_Exception
       (check_body br (fresh_handler s) timeout)
       (fun _ => ret (STATUS_ERROR, None)))
    (page_remove_listener "response" (fresh_handler s))
    (armed s).
Proof. reflexivity. Qed.

(** The wait for the interceptor never lets an exception through. *)
Lemma wait_swallowed (h : nat) (timeout : float) (s : Session W) :
  fst (try_except is_asyncio_TimeoutError
         (wait_for_response_received br h timeout)
         (fun _ => ret tt) s) = Ok tt.
Proof.
  unfold try_except, wait_for_response_received.
  destruct (br_event_loop br timeout (world s)) as [rs w1].
  (destruct (timeout <=? 0)%float;
   [|match goal with
     | |- context [response_received ?c] =>
         destruct (response_received c)
     end]); reflexivity.
Qed.

(** The body of the check, stage by stage. *)
Lemma check_body_unfold (timeout : float) (s : Session W) :
  check_body br (fresh_handler s) timeout (armed s) =
  match fst (page_goto br one_url "domcontentloaded" (timeout * 1000)%float (armed s)) with
  | Raise e => (Raise e, navigated br timeout s)
  | Ok _ =>
      match fst (page_wait_for_load_state br "networkidle" 10000%float
                   (awaited br timeout s)) with
      | Raise e => (Raise e, settled br timeout s)
      | Ok _ => classify br (fresh_handler s) (settled br timeout s)
      end
  end.
Proof.
  unfold check_body, settled, awaited, navigated.
  unfold bind at 1.
  destruct (page_goto br one_url "domcontentloaded" (timeout * 1000)%float (armed s))
    as [[[]|e] s1]; simpl; [|reflexivity].
  unfold bind at 1.
  pose proof (wait_swallowed (fresh_handler s) timeout s1) as Hw.
  destruct (try_except is_asyncio_TimeoutError
              (wait_for_response_received br (fresh_handler s) timeout)
              (fun _ => ret tt) s1) as [[[]|e] s2]; simpl in *; [|discriminate].
  unfold bind at 1.
  destruct (page_wait_for_load_state br "networkidle" 10000%float s2)
    as [[[]|e] s3]; reflexivity.
Qed.

(** The answer of the check in terms of its body, and the listeners
    afterwards. *)
Lemma check_result (timeout : float) (s : Session W) :
  fst (check_google_one_status_v2 br timeout s) =
    match fst (check_body br (fresh_handler s) timeout (armed s)) with
    | Ok r => Ok r
    | Raise _ => Ok (STATUS_ERROR, None)
    end /\
  listeners (snd (check_google_one_status_v2 br timeout s)) = listeners s.
Proof.
  rewrite check_unfold. unfold try_finally, try_except.
  destruct (check_body_spec br (fresh_handler s) timeout (armed s))
    as [[HL _] _].
  rewrite armed_listeners in HL.
  set (h := fresh_handler s) in *.
  assert (Hreg : forall s' : Session W, listeners s' = (listeners s ++ [h])%list ->
                 registered h s' = true).
  { intros s' Hs'. unfold registered. rewrite Hs', existsb_app. simpl.
    rewrite Nat.eqb_refl. apply orb_true_iff. right. reflexivity. }
  assert (Hfil : filter (fun h' => negb (Nat.eqb h' h)) (listeners s ++ [h]) = listeners s).
  { rewrite filter_app. simpl. rewrite Nat.eqb_refl. simpl.
    rewrite app_nil_r. apply filter_not_registered. apply fresh_not_registered. }
  destruct (check_body br h timeout (armed s)) as [[r|e] s1]; simpl in *.
  - unfold page_remove_listener. rewrite (Hreg s1 HL). simpl.
    rewrite HL. auto.
  - unfold page_remove_listener. rewrite (Hreg s1 HL). simpl.
    rewrite HL. auto.
Qed.

End Qualification.

(** ** The claims about the detection flow *)

Section Flow.

Context {W : Type} (br : Browser W).

(** C7. The listener that [check_google_one_status_v2] registers is on
    the page while the body of the check runs and is removed on every exit
    of the check, whatever the browser answered: the listeners after the
    check are the listeners before it, the handler of the check is not
    among them, and the same holds after a whole detection. *)
Theorem listener_released (timeout : float) (s : Session W) :
  listeners (armed s) = (listeners s ++ [fresh_handler s])%list /\
  listeners (snd (check_google_one_status_v2 br timeout s)) = listeners s /\
  registered (fresh_handler s) (snd (check_google_one_status_v2 br timeout s)) = false /\
  listeners (snd (full_google_detection br timeout s)) = listeners s.
Proof.
  destruct (check_result br timeout s) as [_ HL].
  split; [apply armed_listeners|]. split; [exact HL|]. split.
  - unfold registered. rewrite HL. apply (fresh_not_registered s).
  - unfold full_google_detection, bind.
    destruct (check_google_login_by_avatar_spec br timeout s) as [[HL0 _] _].
    destruct (check_google_login_by_avatar br timeout s) as [[b|e] s1];
      simpl in *; [|exact HL0].
    destruct b; simpl; [|exact HL0].
    destruct (check_result br timeout s1) as [_ HL1].
    destruct (check_google_one_status_v2 br timeout s1) as [[r|e] s2];
      simpl in *; congruence.
Qed.

(** C5. When the login detector answers [False], the detection answers
    [(False, 'not_logged_in', None)] and ends in the session the login
    detector left: the qualification check is not run.  The calls made are
    those of the login detector only, none of them registers or removes a
    listener, and the listeners of the page are untouched. *)
Theorem not_logged_in_short_circuit (timeout : float) (s : Session W) :
  fst (check_google_login_by_avatar br timeout s) = Ok false ->
  full_google_detection br timeout s =
    (Ok (false, STATUS_NOT_LOGGED_IN, None),
     snd (check_google_login_by_avatar br timeout s)) /\
  listeners (snd (full_google_detection br timeout s)) = listeners s /\
  exists new,
    calls (snd (full_google_detection br timeout s)) = (new ++ calls s)%list /\
    Forall login_call new /\
    Forall (fun c => listener_call c = false) new.
Proof.
  intro Hlogin.
  assert (Hfull : full_google_detection br timeout s =
    (Ok (false, STATUS_NOT_LOGGED_IN, None),
     snd (check_google_login_by_avatar br timeout s))).
  { unfold full_google_detection, bind.
    destruct (check_google_login_by_avatar br timeout s) as [[b|e] s1];
      simpl in Hlogin; [|discriminate].
    injection Hlogin as ->. reflexivity. }
  rewrite Hfull. simpl.
  destruct (check_google_login_by_avatar_spec br timeout s)
    as [[HL (new & Hcalls & Hnew)] _].
  split; [reflexivity|]. split; [exact HL|].
  exists new. split; [exact Hcalls|]. split; [exact Hnew|].
  eapply Forall_impl; [|exact Hnew].
  intros [] Hc; simpl in *; try reflexivity; contradiction.
Qed.

(** C4. When the count of the pending-verification marker is positive,
    the DOM classifier answers [link_ready] with whatever the evidence
    extractor finds, and stops there: the session it ends in is the one the
    extractor left, so no later rule is looked at, and the answer is never
    [verified], whatever the page holds besides. *)
Theorem pending_marker_wins (s : Session W) (n : nat) :
  fst (locator_count br link_ready_selector s) = Ok n ->
  0 < n ->
  exists link,
    fst (_extract_sheerid_link br (snd (locator_count br link_ready_selector s)))
      = Ok link /\
    _detect_page_elements br s =
      (Ok (STATUS_LINK_READY, link),
       snd (_extract_sheerid_link br (snd (locator_count br link_ready_selector s)))) /\
    fst (_detect_page_elements br s) <> Ok (STATUS_VERIFIED, None).
Proof.
  intros Hcount Hpos.
  destruct (extract_sheerid_link_spec br
              (snd (locator_count br link_ready_selector s))) as [_ Hr].
  destruct (fst (_extract_sheerid_link br
                   (snd (locator_count br link_ready_selector s))))
    as [link|e] eqn:Hlink; [|contradiction].
  exists link. split; [reflexivity|].
  assert (Heq : _detect_page_elements br s =
    (Ok (STATUS_LINK_READY, link),
     snd (_extract_sheerid_link br (snd (locator_count br link_ready_selector s))))).
  { unfold _detect_page_elements, try_except.
    unfold bind at 1.
    destruct (locator_count br link_ready_selector s) as [[n'|e] s1];
      simpl in Hcount; [|discriminate].
    injection Hcount as ->. simpl snd in *.
    replace (0 <? n)%nat with true by (symmetry; apply Nat.ltb_lt; exact Hpos).
    unfold bind.
    destruct (_extract_sheerid_link br s1) as [[link'|e] s2]; simpl in *;
      [|discriminate].
    injection Hlink as ->. reflexivity. }
  split; [exact Heq|].
  rewrite Heq. simpl. discriminate.
Qed.

End Flow.

(** The login detector finds no avatar on [signed_out_page]. *)
Lemma not_logged_in_short_circuit_witness :
  full_google_detection (scripted signed_out_page) 20%float initial_session =
    (Ok (false, STATUS_NOT_LOGGED_IN, None),
     snd (check_google_login_by_avatar (scripted signed_out_page) 20%float
            initial_session)) /\
  listeners (snd (full_google_detection (scripted signed_out_page) 20%float
                    initial_session)) = [] /\
  exists new,
    calls (snd (full_google_detection (scripted signed_out_page) 20%float
                  initial_session)) = (new ++ [])%list /\
    Forall login_call new /\
    Forall (fun c => listener_call c = false) new.
Proof.
  apply (not_logged_in_short_circuit (scripted signed_out_page) 20%float
           initial_session).
  vm_compute. reflexivity.
Defined.

(** On [both_markers_page] the marker of a verified account is there too. *)
Lemma pending_marker_wins_witness :
  fst (locator_count (scripted both_markers_page) verified_selector
         initial_session) = Ok 1 /\
  exists link,
    fst (_extract_sheerid_link (scripted both_markers_page)
           (snd (locator_count (scripted both_markers_page) link_ready_selector
                   initial_session))) = Ok link /\
    _detect_page_elements (scripted both_markers_page) initial_session =
      (Ok (STATUS_LINK_READY, link),
       snd (_extract_sheerid_link (scripted both_markers_page)
              (snd (locator_count (scripted both_markers_page) link_ready_selector
                      initial_session)))) /\
    fst (_detect_page_elements (scripted both_markers_page) initial_session)
      <> Ok (STATUS_VERIFIED, None).
Proof.
  split; [reflexivity|].
  apply (pending_marker_wins (scripted both_markers_page) initial_session 1).
  - reflexivity.
  - lia.
Defined.

(** ** The interceptor *)

Lemma handle_response_data (r : Response) (c : Cell) :
  api_response_data (handle_response r c) =
  match captured r with
  | Some body => Some body
  | None => api_response_data c
  end.
Proof.
  unfold handle_response, captured.
  destruct (str_in "rpcids=GI6Jdd" (url r)); [|reflexivity].
  destruct (text r); reflexivity.
Qed.

Lemma handle_response_received (r : Response) (c : Cell) :
  response_received (handle_response r c) =
  response_received c || is_some (captured r).
Proof.
  unfold handle_response, captured.
  destruct (str_in "rpcids=GI6Jdd" (url r)); simpl.
  - destruct (text r); simpl.
    + rewrite orb_true_r. reflexivity.
    + rewrite orb_false_r. reflexivity.
  - rewrite orb_false_r. reflexivity.
Qed.

(** What a registered handler holds after the responses of [rs]. *)
Lemma dispatch_cell {W : Type} (rs : list Response) (s : Session W) (h : nat) :
  cells (dispatch rs s) h =
  if registered h s then handle_all rs (cells s h) else cells s h.
Proof.
  unfold dispatch, handle_all. revert s.
  induction rs as [|r rs IH]; intro s; simpl.
  - destruct (registered h s); reflexivity.
  - rewrite IH. unfold registered at 1. simpl.
    fold (registered h s). destruct (registered h s); reflexivity.
Qed.

(** C3, as the code has it. The completion signal is single-shot: once
    set it stays set, and it is set exactly when some response so far named
    the backend call and could be read.  The stored body is not written
    once: every later such response overwrites it, so that the cell holds
    the body of the latest one.  On the page the cell of a registered
    handler follows the responses delivered, in order. *)
Theorem latest_response_is_stored (rs : list Response) (c : Cell) :
  api_response_data (handle_all rs c) =
    match last_captured rs with
    | Some body => Some body
    | None => api_response_data c
    end /\
  response_received (handle_all rs c) =
    response_received c || is_some (last_captured rs) /\
  (response_received c = true -> response_received (handle_all rs c) = true) /\
  (forall (W : Type) (s : Session W) (h : nat),
     registered h s = true -> cells s h = c ->
     cells (dispatch rs s) h = handle_all rs c).
Proof.
  assert (H : api_response_data (handle_all rs c) =
                match last_captured rs with
                | Some body => Some body
                | None => api_response_data c
                end /\
              response_received (handle_all rs c) =
                response_received c || is_some (last_captured rs)).
  { unfold handle_all. revert c.
    induction rs as [|r rs IH]; intro c; simpl.
    - rewrite orb_false_r. split; reflexivity.
    - destruct (IH (handle_response r c)) as [Hd Hr].
      rewrite Hd, Hr, handle_response_data, handle_response_received.
      destruct (last_captured rs); simpl.
      + rewrite !orb_true_r. split; reflexivity.
      + rewrite orb_false_r. split; reflexivity. }
  destruct H as [Hd Hr]. split; [exact Hd|]. split; [exact Hr|]. split.
  - intro Hset. rewrite Hr, Hset. reflexivity.
  - intros W s h Hreg Hc. rewrite dispatch_cell, Hreg, Hc. reflexivity.
Qed.

(** Two answers to the backend call, the handler of the check registered. *)
Lemma latest_response_is_stored_witness :
  response_received
    (handle_all [rpc_response "[]"] (handle_response (rpc_response "[[2 TB]]") new_cell))
    = true /\
  cells (dispatch [rpc_response "[[2 TB]]"; rpc_response "[]"]
           (armed initial_session)) 1
    = handle_all [rpc_response "[[2 TB]]"; rpc_response "[]"] new_cell.
Proof.
  split.
  - apply (proj1 (proj2 (proj2
      (latest_response_is_stored [rpc_response "[]"]
         (handle_response (rpc_response "[[2 TB]]") new_cell))))).
    reflexivity.
  - apply (proj2 (proj2 (proj2
      (latest_response_is_stored [rpc_response "[[2 TB]]"; rpc_response "[]"]
         new_cell)))).
    + reflexivity.
    + reflexivity.
Defined.

(** C3 fails as stated. The first answer to the backend call is stored
    and sets the signal; the second one, handled by the same closure,
    replaces the stored body.  On [two_answers_page] both answers arrive
    while the page loads: the check classifies the second body, which gives
    no signal, where the first one said [subscribed]. *)
Lemma later_response_overwrites :
  api_response_data (handle_response (rpc_response "[[2 TB]]") new_cell)
    = Some "[[2 TB]]" /\
  response_received (handle_response (rpc_response "[[2 TB]]") new_cell) = true /\
  api_response_data
    (handle_response (rpc_response "[]")
       (handle_response (rpc_response "[[2 TB]]") new_cell)) = Some "[]" /\
  _parse_api_response "[[2 TB]]" = Some STATUS_SUBSCRIBED /\
  fst (check_google_one_status_v2 (scripted two_answers_page) 20%float
         initial_session) = Ok (STATUS_INELIGIBLE, None).
Proof. repeat split; vm_compute; reflexivity. Qed.

(** ** Failures and fallbacks *)

Section Failures.

Context {W : Type} (br : Browser W).

Lemma classified_not_error (r : Status * option string) :
  classified r -> fst r <> STATUS_ERROR /\ evidence_ok r.
Proof.
  unfold classified, dom_result, evidence_ok.
  intros [-> | [-> | [[H | [-> | ->]] Hev]]]; simpl;
    (split; [try discriminate | try (intros link Hl; discriminate Hl)]).
  - rewrite H. discriminate.
  - exact Hev.
Qed.

(** The answer of the check when its body gets past both fatal waits. *)
Lemma check_classifies (timeout : float) (s : Session W) :
  fst (page_goto br one_url "domcontentloaded" (timeout * 1000)%float (armed s))
    = Ok tt ->
  fst (page_wait_for_load_state br "networkidle" 10000%float (awaited br timeout s))
    = Ok tt ->
  fst (check_google_one_status_v2 br timeout s)
    = fst (classify br (fresh_handler s) (settled br timeout s)) /\
  exists r, fst (check_google_one_status_v2 br timeout s) = Ok r /\ classified r.
Proof.
  intros Hgoto Hidle.
  destruct (check_result br timeout s) as [Hres _].
  rewrite check_body_unfold, Hgoto, Hidle in Hres.
  destruct (classify_spec br (fresh_handler s) (settled br timeout s)) as [_ Hc].
  destruct (fst (classify br (fresh_handler s) (settled br timeout s)))
    as [r|e] eqn:Hcl; [|contradiction].
  split; [exact Hres|]. exists r. split; [exact Hres | exact Hc].
Qed.

(** The answer of the check when one of the two fatal waits fails. *)
Lemma check_fails (timeout : float) (s : Session W) (e : exn) :
  fst (page_goto br one_url "domcontentloaded" (timeout * 1000)%float (armed s))
    = Raise e \/
  (fst (page_goto br one_url "domcontentloaded" (timeout * 1000)%float (armed s))
     = Ok tt /\
   fst (page_wait_for_load_state br "networkidle" 10000%float (awaited br timeout s))
     = Raise e) ->
  fst (check_google_one_status_v2 br timeout s) = Ok (STATUS_ERROR, None).
Proof.
  intros H.
  destruct (check_result br timeout s) as [Hres _].
  rewrite check_body_unfold in Hres.
  destruct H as [Hgoto | [Hgoto Hidle]].
  - rewrite Hgoto in Hres. exact Hres.
  - rewrite Hgoto, Hidle in Hres. exact Hres.
Qed.

(** The check always returns, with [error] or an answer of the
    classification stage. *)
Lemma check_total (timeout : float) (s : Session W) :
  exists r, fst (check_google_one_status_v2 br timeout s) = Ok r /\
            (r = (STATUS_ERROR, None) \/ classified r).
Proof.
  destruct (fst (page_goto br one_url "domcontentloaded" (timeout * 1000)%float
                   (armed s))) as [[]|e] eqn:Hgoto.
  - destruct (fst (page_wait_for_load_state br "networkidle" 10000%float
                     (awaited br timeout s))) as [[]|e] eqn:Hidle.
    + destruct (check_classifies timeout s Hgoto Hidle) as [_ (r & Hr & Hc)].
      exists r. auto.
    + exists (STATUS_ERROR, None). split; [|left; reflexivity].
      apply (check_fails timeout s e). right. auto.
  - exists (STATUS_ERROR, None). split; [|left; reflexivity].
    apply (check_fails timeout s e). left. exact Hgoto.
Qed.

(** C2, as the code has it. Every detection returns a well-formed
    triple in which an evidence link, when present, is a non-empty string
    and comes with the status [link_ready]; a detection that is not logged
    in has the status [not_logged_in] and no link.  The converse is not
    promised: the DOM classifier answers [link_ready] without a link, and
    it does so only through its first rule, after a positive count of the
    pending-verification marker. *)
Theorem evidence_implies_link_ready (timeout : float) (s : Session W) :
  (exists b st link,
     fst (full_google_detection br timeout s) = Ok (b, st, link) /\
     (forall l, link = Some l -> st = STATUS_LINK_READY /\ truthy l = true) /\
     (b = false -> st = STATUS_NOT_LOGGED_IN /\ link = None)) /\
  (fst (_detect_page_elements br s) = Ok (STATUS_LINK_READY, None) ->
   exists n, fst (locator_count br link_ready_selector s) = Ok n /\ 0 < n).
Proof.
  split.
  - unfold full_google_detection, bind.
    destruct (check_google_login_by_avatar_spec br timeout s) as [_ Hlogin].
    destruct (check_google_login_by_avatar br timeout s) as [[b|e] s1];
      simpl in Hlogin; [|contradiction].
    destruct b; simpl.
    + destruct (check_total timeout s1) as ([st link] & Hr & Hc).
      destruct (check_google_one_status_v2 br timeout s1) as [[r|e] s2];
        simpl in Hr; [|discriminate].
      injection Hr as ->. simpl.
      exists true, st, link. split; [reflexivity|]. split; [|discriminate].
      destruct Hc as [Herr | Hc].
      * injection Herr as -> ->. intros l Hl. discriminate Hl.
      * apply classified_not_error in Hc. destruct Hc as [_ Hev].
        exact Hev.
    + exists false, STATUS_NOT_LOGGED_IN, None.
      split; [reflexivity|]. split; [intros l Hl; discriminate Hl | auto].
  - unfold _detect_page_elements.
    set (offers := offer_loop br offer_selectors).
    unfold try_except. unfold bind at 1.
    destruct (locator_count br link_ready_selector s) as [[n1|e] s1]; simpl;
      [|discriminate].
    destruct (0 <? n1)%nat eqn:Hn1.
    + intros _. exists n1. split; [reflexivity | apply Nat.ltb_lt; exact Hn1].
    + unfold bind at 1.
      destruct (locator_count br verified_selector s1) as [[n2|e] s2]; simpl;
        [|discriminate].
      destruct (0 <? n2)%nat; simpl; [discriminate|].
      unfold bind at 1.
      destruct (_extract_sheerid_link br s2) as [[o|e] s3]; simpl;
        [|discriminate].
      destruct (truthy_opt o) eqn:Ho; simpl.
      * intro H. injection H as ->. discriminate Ho.
      * destruct (offer_loop_spec br offer_selectors s3) as [_ Hoff].
        fold offers in Hoff.
        destruct (offers s3) as [[r|e] s4]; simpl in *; [|contradiction].
        destruct Hoff as [-> | ->]; discriminate.
Qed.

End Failures.

(** [pending_without_link_page] has the marker, at the first rule. *)
Lemma evidence_implies_link_ready_witness :
  exists n,
    fst (locator_count (scripted pending_without_link_page) link_ready_selector
           initial_session) = Ok n /\ 0 < n.
Proof.
  apply (proj2 (evidence_implies_link_ready (scripted pending_without_link_page)
                  20%float initial_session)).
  vm_compute. reflexivity.
Defined.


(** C2 fails as stated. On [pending_without_link_page] the detection
    answers [link_ready] and has no evidence link. *)
Lemma link_ready_without_evidence :
  fst (full_google_detection (scripted pending_without_link_page) 20%float
         initial_session) = Ok (true, STATUS_LINK_READY, None).
Proof. vm_compute. reflexivity. Qed.

(** ** What crosses the boundaries *)

Section Boundaries.

Context {W : Type} (br : Browser W).

Lemma avatar_loop_waits_fail (timeout : float) (selectors : list string)
    (s : Session W) :
  waits_fail br timeout selectors s ->
  avatar_loop br timeout selectors s =
    (Ok false, after_waits br timeout selectors s).
Proof.
  revert s. induction selectors as [|selector rest IH]; intro s.
  - reflexivity.
  - cbn [waits_fail after_waits avatar_loop]. intros [[e He] Hrest].
    unfold try_except at 1. unfold bind at 1.
    destruct (expect_to_be_visible br selector (timeout * 1000)%float s)
      as [[u|e'] s1]; simpl in He; [discriminate|].
    cbn [snd is_Exception] in *. apply IH. exact Hrest.
Qed.

(** The answer of the check for each outcome of the registration and of
    the removal of its listener. *)
Lemma check_with_result (registration removal : res unit) (timeout : float)
    (s : Session W) :
  fst (check_google_one_status_v2_with br registration removal timeout s) =
  match registration with
  | Raise e => Raise e
  | Ok _ =>
      match removal with
      | Raise e => Raise e
      | Ok _ => fst (check_google_one_status_v2 br timeout s)
      end
  end.
Proof.
  destruct registration as [[]|e]; [|reflexivity].
  destruct removal as [[]|e]; [reflexivity|].
  unfold check_google_one_status_v2_with, bind, def_handle_response,
    page_on_with, page_on, try_finally.
  match goal with
  | |- context [try_except is_Exception ?m ?h ?s0] =>
      destruct (try_except is_Exception m h s0) as [r s1]
  end.
  reflexivity.
Qed.

(** C6, as the code has it. The login detector always returns a
    boolean, [False] when the navigation fails and when each of the waits
    on the avatar locators fails, and [is_on_login_page] always returns a
    boolean.  The qualification check returns a pair whenever the
    registration and the removal of its listener succeed:
    [('error', None)] exactly for the failures that reach its own handler,
    those of the navigation and of the wait for the quiet network, and
    otherwise an answer of the classification stage, which is never
    [error].  An exception of [page.on] or of [page.remove_listener] is
    caught by no handler: it is raised by the check, and by the whole
    detection when the account is logged in.  A detection that is not
    logged in always returns. *)
Theorem operations_never_raise (timeout : float) (s : Session W) :
  (exists b, fst (check_google_login_by_avatar br timeout s) = Ok b) /\
  (forall e,
     fst (page_goto br accounts_url "domcontentloaded" (timeout * 1000)%float s)
       = Raise e ->
     fst (check_google_login_by_avatar br timeout s) = Ok false) /\
  (waits_fail br timeout avatar_selectors
     (snd (page_goto br accounts_url "domcontentloaded"
             (timeout * 1000)%float s)) ->
   fst (check_google_login_by_avatar br timeout s) = Ok false) /\
  (exists b, fst (is_on_login_page br s) = Ok b) /\
  (forall registration removal,
     fst (check_google_one_status_v2_with br registration removal timeout s) =
     match registration with
     | Raise e => Raise e
     | Ok _ =>
         match removal with
         | Raise e => Raise e
         | Ok _ => fst (check_google_one_status_v2 br timeout s)
         end
     end) /\
  (exists r, fst (check_google_one_status_v2 br timeout s) = Ok r /\
             (r = (STATUS_ERROR, None) \/ classified r)) /\
  (forall e,
     fst (page_goto br one_url "domcontentloaded" (timeout * 1000)%float (armed s))
       = Raise e \/
     (fst (page_goto br one_url "domcontentloaded" (timeout * 1000)%float (armed s))
        = Ok tt /\
      fst (page_wait_for_load_state br "networkidle" 10000%float
             (awaited br timeout s)) = Raise e) ->
     fst (check_google_one_status_v2 br timeout s) = Ok (STATUS_ERROR, None)) /\
  (fst (page_goto br one_url "domcontentloaded" (timeout * 1000)%float (armed s))
     = Ok tt ->
   fst (page_wait_for_load_state br "networkidle" 10000%float (awaited br timeout s))
     = Ok tt ->
   exists r, fst (check_google_one_status_v2 br timeout s) = Ok r /\
             fst r <> STATUS_ERROR) /\
  (fst (check_google_login_by_avatar br timeout s) = Ok false ->
   forall registration removal,
     fst (full_google_detection_with br registration removal timeout s)
       = Ok (false, STATUS_NOT_LOGGED_IN, None)) /\
  (fst (check_google_login_by_avatar br timeout s) = Ok true ->
   forall registration removal,
     fst (full_google_detection_with br registration removal timeout s) =
     match registration with
     | Raise e => Raise e
     | Ok _ =>
         match removal with
         | Raise e => Raise e
         | Ok _ => fst (full_google_detection br timeout s)
         end
     end) /\
  (exists r, fst (full_google_detection br timeout s) = Ok r).
Proof.
  split; [|split; [|split; [|split; [|split; [|split; [|split; [|split;
    [|split; [|split]]]]]]]]].
  - destruct (check_google_login_by_avatar_spec br timeout s) as [_ H].
    destruct (fst (check_google_login_by_avatar br timeout s)) as [b|e];
      [exists b; reflexivity | contradiction].
  - intros e Hgoto.
    unfold check_google_login_by_avatar, try_except, bind.
    destruct (page_goto br accounts_url "domcontentloaded" (timeout * 1000)%float s)
      as [[[]|e'] s1]; simpl in Hgoto; [discriminate|].
    reflexivity.
  - intro Hfail.
    unfold check_google_login_by_avatar, try_except, bind.
    destruct (page_goto br accounts_url "domcontentloaded" (timeout * 1000)%float s)
      as [[[]|e'] s1]; [|reflexivity].
    cbn [snd] in Hfail.
    rewrite (avatar_loop_waits_fail timeout avatar_selectors s1 Hfail).
    reflexivity.
  - unfold is_on_login_page, try_except, bind, page_url.
    destruct (br_url br (world s)); eexists; reflexivity.
  - intros registration removal. apply check_with_result.
  - apply check_total.
  - intros e H. eapply check_fails; eauto.
  - intros Hgoto Hidle.
    destruct (check_classifies br timeout s Hgoto Hidle) as [_ (r & Hr & Hc)].
    exists r. split; [exact Hr|]. apply classified_not_error. exact Hc.
  - intros Hlogin registration removal.
    unfold full_google_detection_with, bind.
    destruct (check_google_login_by_avatar br timeout s) as [[b|e] s1];
      simpl in Hlogin; [|discriminate].
    injection Hlogin as ->. reflexivity.
  - intros Hlogin registration removal.
    assert (Hf : forall c : M W (Status * option string),
      fst (bind (check_google_login_by_avatar br timeout)
             (fun is_logged_in : bool =>
                if negb is_logged_in
                then ret (false, STATUS_NOT_LOGGED_IN, None)
                else bind c (fun r => ret (true, fst r, snd r))) s) =
      match fst (c (snd (check_google_login_by_avatar br timeout s))) with
      | Ok r => Ok (true, fst r, snd r)
      | Raise e => Raise e
      end).
    { intro c. unfold bind.
      destruct (check_google_login_by_avatar br timeout s) as [[b|e] s1];
        simpl in Hlogin; [|discriminate].
      injection Hlogin as ->. cbn [negb snd].
      destruct (c s1) as [[r|e] s2]; reflexivity. }
    unfold full_google_detection_with, full_google_detection.
    rewrite (Hf (check_google_one_status_v2_with br registration removal timeout)).
    rewrite (Hf (check_google_one_status_v2 br timeout)).
    rewrite check_with_result.
    destruct registration as [[]|e]; [destruct removal as [[]|e]|]; reflexivity.
  - unfold full_google_detection, bind.
    destruct (check_google_login_by_avatar_spec br timeout s) as [_ Hlogin].
    destruct (check_google_login_by_avatar br timeout s) as [[b|e] s1];
      simpl in Hlogin; [|contradiction].
    destruct b; simpl; [|eexists; reflexivity].
    destruct (check_total br timeout s1) as (r & Hr & _).
    destruct (check_google_one_status_v2 br timeout s1) as [[r'|e] s2];
      simpl in Hr; [|discriminate].
    eexists; reflexivity.
Qed.

(** C8, as the code has it. The two waits are made one after the other:
    once the navigation is over the check first awaits the completion
    signal of the interceptor, bounded by [timeout], and only when that
    await has ended does it await the quiet network, bounded by 10000 ms.
    The outcome of the second await is not discarded: when it fails the
    answer is [('error', None)] whatever payload was captured, and when it
    succeeds the answer is the classification of the session it left. *)
Theorem waits_are_sequential (timeout : float) (s : Session W) :
  fst (page_goto br one_url "domcontentloaded" (timeout * 1000)%float (armed s))
    = Ok tt ->
  calls (settled br timeout s) =
    wait_for_load_state_call "networkidle" 10000%float
    :: wait_for_call timeout
    :: goto_call one_url "domcontentloaded" (timeout * 1000)%float
    :: page_on_call "response" (fresh_handler s)
    :: calls s /\
  (forall e,
     fst (page_wait_for_load_state br "networkidle" 10000%float
            (awaited br timeout s)) = Raise e ->
     fst (check_google_one_status_v2 br timeout s) = Ok (STATUS_ERROR, None)) /\
  (fst (page_wait_for_load_state br "networkidle" 10000%float
          (awaited br timeout s)) = Ok tt ->
   fst (check_google_one_status_v2 br timeout s)
     = fst (classify br (fresh_handler s) (settled br timeout s))).
Proof.
  intro Hgoto. split; [|split].
  - unfold settled, awaited, navigated.
    unfold page_wait_for_load_state at 1, await at 1.
    match goal with
    | |- context [br_wait_for_load_state br ?a ?b ?w] =>
        destruct (br_wait_for_load_state br a b w) as [[rs3 r3] w3]
    end.
    cbn [snd]. rewrite dispatch_calls. cbn [calls]. f_equal.
    unfold try_except, wait_for_response_received.
    match goal with
    | |- context [br_event_loop br ?a ?w] =>
        destruct (br_event_loop br a w) as [rs2 w2]
    end.
    (destruct (timeout <=? 0)%float;
     [|match goal with
       | |- context [response_received ?c] =>
           destruct (response_received c)
       end]); cbn [snd is_asyncio_TimeoutError ret]; rewrite dispatch_calls;
      cbn [calls]; f_equal.
    all: unfold page_goto, await.
    all: match goal with
         | |- context [br_goto br ?a ?b ?c ?w] =>
             destruct (br_goto br a b c w) as [[rs1 r1] w1]
         end.
    all: cbn [snd]; rewrite dispatch_calls; reflexivity.
  - intros e Hidle. apply (check_fails br timeout s e). right. auto.
  - intro Hidle. apply (check_classifies br timeout s Hgoto Hidle).
Qed.

(** C9, as the code has it. Of the three waits of the check only the
    wait for the interceptor survives its bound: when it times out, and the
    navigation and the wait for the quiet network succeed, the check goes
    on to the classification stage and its status is not [error].  A
    timeout of the navigation, and a timeout of the wait for the quiet
    network, end the check with [('error', None)]. *)
Theorem only_interceptor_timeout_survives (timeout : float) (s : Session W) :
  (forall msg,
     fst (page_goto br one_url "domcontentloaded" (timeout * 1000)%float (armed s))
       = Raise (PlaywrightTimeoutError msg) ->
     fst (check_google_one_status_v2 br timeout s) = Ok (STATUS_ERROR, None)) /\
  (forall msg,
     fst (page_goto br one_url "domcontentloaded" (timeout * 1000)%float (armed s))
       = Ok tt ->
     fst (page_wait_for_load_state br "networkidle" 10000%float
            (awaited br timeout s)) = Raise (PlaywrightTimeoutError msg) ->
     fst (check_google_one_status_v2 br timeout s) = Ok (STATUS_ERROR, None)) /\
  (fst (page_goto br one_url "domcontentloaded" (timeout * 1000)%float (armed s))
     = Ok tt ->
   fst (wait_for_response_received br (fresh_handler s) timeout
          (navigated br timeout s)) = Raise AsyncioTimeoutError ->
   fst (page_wait_for_load_state br "networkidle" 10000%float
          (awaited br timeout s)) = Ok tt ->
   fst (check_google_one_status_v2 br timeout s)
     = fst (classify br (fresh_handler s) (settled br timeout s)) /\
   exists r, fst (check_google_one_status_v2 br timeout s) = Ok r /\
             classified r /\ fst r <> STATUS_ERROR).
Proof.
  split; [|split].
  - intros msg Hgoto. eapply check_fails. left. exact Hgoto.
  - intros msg Hgoto Hidle. eapply check_fails. right. split; eauto.
  - intros Hgoto _ Hidle.
    destruct (check_classifies br timeout s Hgoto Hidle) as [Heq (r & Hr & Hc)].
    split; [exact Heq|]. exists r. split; [exact Hr|]. split; [exact Hc|].
    apply classified_not_error. exact Hc.
Qed.

(** C10, as the code has it. The DOM classifier never raises and never
    answers [error].  An exception while the first or the second marker is
    counted ends the evaluation at once with [('ineligible', None)]: no
    later rule is looked at.  Only the last two rules treat a failure as no
    match: the evidence extractor answers [None] when its locator fails,
    and a failing offer locator passes on to the next one; when the offer
    locators are exhausted the answer is [('ineligible', None)].  The
    extractor itself never raises, and when neither marker is there and it
    finds no link the evaluation goes on with the offer locators. *)
Theorem rule_failures (s : Session W) :
  (exists r, fst (_detect_page_elements br s) = Ok r /\ dom_result r) /\
  (forall e,
     fst (locator_count br link_ready_selector s) = Raise e ->
     _detect_page_elements br s =
       (Ok (STATUS_INELIGIBLE, None),
        snd (locator_count br link_ready_selector s))) /\
  (forall e,
     fst (locator_count br link_ready_selector s) = Ok 0 ->
     fst (locator_count br verified_selector
            (snd (locator_count br link_ready_selector s))) = Raise e ->
     _detect_page_elements br s =
       (Ok (STATUS_INELIGIBLE, None),
        snd (locator_count br verified_selector
               (snd (locator_count br link_ready_selector s))))) /\
  (forall e,
     fst (locator_count br sheerid_selector s) = Raise e ->
     _extract_sheerid_link br s =
       (Ok None, snd (locator_count br sheerid_selector s))) /\
  (forall e selector rest,
     fst (locator_count br selector s) = Raise e ->
     offer_loop br (selector :: rest) s =
       offer_loop br rest (snd (locator_count br selector s))) /\
  offer_loop br [] s = (Ok (STATUS_INELIGIBLE, None), s) /\
  (exists o, fst (_extract_sheerid_link br s) = Ok o) /\
  (fst (locator_count br link_ready_selector s) = Ok 0 ->
   fst (locator_count br verified_selector
          (snd (locator_count br link_ready_selector s))) = Ok 0 ->
   fst (_extract_sheerid_link br
          (snd (locator_count br verified_selector
                  (snd (locator_count br link_ready_selector s))))) = Ok None ->
   _detect_page_elements br s =
     offer_loop br offer_selectors
       (snd (_extract_sheerid_link br
               (snd (locator_count br verified_selector
                       (snd (locator_count br link_ready_selector s))))))).
Proof.
  split; [|split; [|split; [|split; [|split; [|split; [|split]]]]]].
  - destruct (detect_page_elements_spec br s) as [_ H].
    destruct (fst (_detect_page_elements br s)) as [r|e];
      [exists r; auto | contradiction].
  - intros e H. unfold _detect_page_elements, try_except. unfold bind at 1.
    destruct (locator_count br link_ready_selector s) as [[n|e'] s1];
      simpl in H; [discriminate|]. reflexivity.
  - intros e H1 H2. unfold _detect_page_elements, try_except. unfold bind at 1.
    destruct (locator_count br link_ready_selector s) as [[n|e'] s1];
      simpl in H1; [|discriminate].
    injection H1 as ->. cbn [snd Nat.ltb Nat.leb] in *. unfold bind at 1.
    destruct (locator_count br verified_selector s1) as [[n|e'] s2];
      simpl in H2; [discriminate|]. reflexivity.
  - intros e H. unfold _extract_sheerid_link, try_except. unfold bind at 1.
    destruct (locator_count br sheerid_selector s) as [[n|e'] s1];
      simpl in H; [discriminate|]. reflexivity.
  - intros e selector rest H. cbn [offer_loop].
    unfold bind at 1. unfold try_except at 1. unfold bind at 1.
    destruct (locator_count br selector s) as [[n|e'] s1];
      simpl in H; [discriminate|]. reflexivity.
  - reflexivity.
  - destruct (extract_sheerid_link_spec br s) as [_ H].
    destruct (fst (_extract_sheerid_link br s)) as [o|e];
      [exists o; reflexivity | contradiction].
  - intros H1 H2 H3. unfold _detect_page_elements.
    set (offers := offer_loop br offer_selectors).
    unfold try_except. unfold bind at 1.
    destruct (locator_count br link_ready_selector s) as [[n|e'] s1];
      simpl in H1; [|discriminate].
    injection H1 as ->. cbn [snd Nat.ltb Nat.leb] in *. unfold bind at 1.
    destruct (locator_count br verified_selector s1) as [[n|e'] s2];
      simpl in H2; [|discriminate].
    injection H2 as ->. cbn [snd Nat.ltb Nat.leb] in *. unfold bind at 1.
    destruct (_extract_sheerid_link br s2) as [[o|e'] s3];
      simpl in H3; [|discriminate].
    injection H3 as ->. cbn [snd truthy_opt].
    destruct (offer_loop_spec br offer_selectors s3) as [_ Hoff].
    fold offers in Hoff.
    destruct (offers s3) as [[r|e'] s4]; simpl in *; [reflexivity | contradiction].
Qed.

End Boundaries.

(** ** The claims on scripted pages *)

(** On [no_avatar_page] each wait on an avatar locator fails although
    the page has a visible element; on [slow_navigation_page] the
    navigation of the check fails; on [silent_verified_page] both fatal
    waits succeed. *)
Lemma operations_never_raise_witness :
  pg_visible no_avatar_page "body" = Ok tt /\
  fst (check_google_login_by_avatar (scripted no_avatar_page) 20%float
         initial_session) = Ok false /\
  fst (check_google_one_status_v2 (scripted slow_navigation_page) 20%float
         initial_session) = Ok (STATUS_ERROR, None) /\
  exists r,
    fst (check_google_one_status_v2 (scripted silent_verified_page) 20%float
           initial_session) = Ok r /\
    fst r <> STATUS_ERROR.
Proof.
  split; [reflexivity|]. split; [|split].
  - apply (proj1 (proj2 (proj2
      (operations_never_raise (scripted no_avatar_page) 20%float
         initial_session)))).
    cbn [waits_fail avatar_selectors].
    repeat split;
      exists (AssertionError "Locator expected to be visible"); reflexivity.
  - apply (proj1 (proj2 (proj2 (proj2 (proj2 (proj2 (proj2
      (operations_never_raise (scripted slow_navigation_page) 20%float
         initial_session)))))))
      (PlaywrightTimeoutError "Timeout 20000ms exceeded.")).
    left. reflexivity.
  - apply (proj1 (proj2 (proj2 (proj2 (proj2 (proj2 (proj2 (proj2
      (operations_never_raise (scripted silent_verified_page) 20%float
         initial_session))))))))).
    + reflexivity.
    + reflexivity.
Defined.

(** C6 fails as stated. When [page.on] raises, the check raises, and so
    does the detection of a logged-in account: the call sits before the
    [try].  And on [broken_count_page] a session operation fails inside the
    qualification check, in the DOM classifier; the failure is caught there
    and the check answers [ineligible], not [error]. *)
Lemma check_raises_or_misses_error :
  fst (check_google_one_status_v2_with (scripted blank_page)
         (Raise (PlaywrightError "Target page, context or browser has been closed"))
         (Ok tt) 20%float initial_session)
    = Raise (PlaywrightError "Target page, context or browser has been closed") /\
  fst (full_google_detection_with (scripted blank_page)
         (Raise (PlaywrightError "Target page, context or browser has been closed"))
         (Ok tt) 20%float initial_session)
    = Raise (PlaywrightError "Target page, context or browser has been closed") /\
  fst (locator_count (scripted broken_count_page) link_ready_selector
         (settled (scripted broken_count_page) 20%float initial_session))
    = Raise (PlaywrightError "Execution context was destroyed") /\
  fst (check_google_one_status_v2 (scripted broken_count_page) 20%float
         initial_session) = Ok (STATUS_INELIGIBLE, None).
Proof. repeat split; vm_compute; reflexivity. Qed.

(** On [never_idle_page] the navigation succeeds and the second wait
    fails. *)
Lemma waits_are_sequential_witness :
  calls (settled (scripted never_idle_page) 20%float initial_session) =
    [ wait_for_load_state_call "networkidle" 10000%float;
      wait_for_call 20%float;
      goto_call one_url "domcontentloaded" (20 * 1000)%float;
      page_on_call "response" 1 ] /\
  fst (check_google_one_status_v2 (scripted never_idle_page) 20%float
         initial_session) = Ok (STATUS_ERROR, None).
Proof.
  assert (Hgoto :
    fst (page_goto (scripted never_idle_page) one_url "domcontentloaded"
           (20 * 1000)%float (armed initial_session)) = Ok tt)
    by reflexivity.
  split.
  - exact (proj1 (waits_are_sequential (scripted never_idle_page) 20%float
                    initial_session Hgoto)).
  - apply (proj1 (proj2 (waits_are_sequential (scripted never_idle_page) 20%float
                           initial_session Hgoto))
             (PlaywrightTimeoutError "Timeout 10000ms exceeded.")).
    reflexivity.
Defined.

(** C8 fails as stated. On [never_idle_page] the completion signal is
    set, with the payload of a subscribed account, before either wait
    begins; the wait for the quiet network then runs into its bound, and
    its outcome decides the answer: [error], not [subscribed]. *)
Lemma second_wait_is_not_discarded :
  response_received
    (cells (navigated (scripted never_idle_page) 20%float initial_session) 1)
    = true /\
  api_response_data
    (cells (navigated (scripted never_idle_page) 20%float initial_session) 1)
    = Some "[[2 TB]]" /\
  _parse_api_response "[[2 TB]]" = Some STATUS_SUBSCRIBED /\
  fst (check_google_one_status_v2 (scripted never_idle_page) 20%float
         initial_session) = Ok (STATUS_ERROR, None).
Proof. repeat split; vm_compute; reflexivity. Qed.

(** On [silent_verified_page] the interceptor sees nothing and the check
    goes on; on [slow_navigation_page] the navigation times out. *)
Lemma only_interceptor_timeout_survives_witness :
  fst (check_google_one_status_v2 (scripted slow_navigation_page) 20%float
         initial_session) = Ok (STATUS_ERROR, None) /\
  fst (check_google_one_status_v2 (scripted never_idle_page) 20%float
         initial_session) = Ok (STATUS_ERROR, None) /\
  fst (check_google_one_status_v2 (scripted silent_verified_page) 20%float
         initial_session)
    = fst (classify (scripted silent_verified_page) 1
             (settled (scripted silent_verified_page) 20%float initial_session)) /\
  exists r,
    fst (check_google_one_status_v2 (scripted silent_verified_page) 20%float
           initial_session) = Ok r /\
    classified r /\ fst r <> STATUS_ERROR.
Proof.
  split; [|split].
  - apply (proj1 (only_interceptor_timeout_survives
                    (scripted slow_navigation_page) 20%float initial_session)
             "Timeout 20000ms exceeded.").
    reflexivity.
  - apply (proj1 (proj2 (only_interceptor_timeout_survives
                           (scripted never_idle_page) 20%float initial_session))
             "Timeout 10000ms exceeded.").
    + reflexivity.
    + reflexivity.
  - apply (proj2 (proj2 (only_interceptor_timeout_survives
                           (scripted silent_verified_page) 20%float
                           initial_session))).
    + reflexivity.
    + reflexivity.
    + reflexivity.
Defined.

(** C9 fails as stated. A timeout of the navigation ends the check with
    [error] although the page shows both markers, and so does a timeout of
    the wait for the quiet network although a payload was captured: neither
    reaches the classifier stages. *)
Lemma navigation_timeout_is_fatal :
  pg_goto slow_navigation_page one_url
    = Raise (PlaywrightTimeoutError "Timeout 20000ms exceeded.") /\
  fst (check_google_one_status_v2 (scripted slow_navigation_page) 20%float
         initial_session) = Ok (STATUS_ERROR, None) /\
  calls (snd (check_google_one_status_v2 (scripted slow_navigation_page) 20%float
                initial_session)) =
    [ page_remove_listener_call "response" 1;
      goto_call one_url "domcontentloaded" (20 * 1000)%float;
      page_on_call "response" 1 ] /\
  pg_load_state never_idle_page
    = Raise (PlaywrightTimeoutError "Timeout 10000ms exceeded.") /\
  fst (check_google_one_status_v2 (scripted never_idle_page) 20%float
         initial_session) = Ok (STATUS_ERROR, None).
Proof. repeat split; vm_compute; reflexivity. Qed.

(** On [broken_count_page] the first count fails. *)
Lemma rule_failures_witness :
  _detect_page_elements (scripted broken_count_page) initial_session =
    (Ok (STATUS_INELIGIBLE, None),
     snd (locator_count (scripted broken_count_page) link_ready_selector
            initial_session)) /\
  offer_loop (scripted broken_count_page) (link_ready_selector :: offer_selectors)
    initial_session =
    offer_loop (scripted broken_count_page) offer_selectors
      (snd (locator_count (scripted broken_count_page) link_ready_selector
              initial_session)).
Proof.
  split.
  - apply (proj1 (proj2 (rule_failures (scripted broken_count_page)
                           initial_session))
             (PlaywrightError "Execution context was destroyed")).
    reflexivity.
  - apply (proj1 (proj2 (proj2 (proj2 (proj2
             (rule_failures (scripted broken_count_page) initial_session)))))
             (PlaywrightError "Execution context was destroyed")).
    reflexivity.
Defined.

(** C10 fails as stated. On [broken_count_page] the first rule raises
    and the second rule would match, yet the classifier answers
    [ineligible]: the only call it makes is the failed count, the second
    rule is never evaluated. *)
Lemma failed_rule_ends_evaluation :
  fst (locator_count (scripted broken_count_page) link_ready_selector
         initial_session)
    = Raise (PlaywrightError "Execution context was destroyed") /\
  fst (locator_count (scripted broken_count_page) verified_selector
         initial_session) = Ok 1 /\
  fst (_detect_page_elements (scripted broken_count_page) initial_session)
    = Ok (STATUS_INELIGIBLE, None) /\
  calls (snd (_detect_page_elements (scripted broken_count_page) initial_session))
    = [count_call link_ready_selector].
Proof. repeat split; vm_compute; reflexivity. Qed.

(** A payload with a storage marker and an unlock marker, and one with
    the unlock marker alone. *)
Lemma parse_api_response_classifies_witness :
  _parse_api_response "[[2TB]], Antigravity" = Some STATUS_SUBSCRIBED_ANTIGRAVITY /\
  _parse_api_response "[Antigravity]" = None.
Proof.
  split.
  - apply (proj1 (parse_api_response_classifies "[[2TB]], Antigravity")).
    + exists "2TB". split; [right; left; reflexivity|].
      exists "[[", "]], Antigravity". reflexivity.
    + exists "Antigravity". split; [left; reflexivity|].
      exists "[[2TB]], ", "". reflexivity.
  - apply (proj2 (proj2 (parse_api_response_classifies "[Antigravity]"))).
    intro H. apply existsb_str_in in H. discriminate H.
Defined.

(** The status strings are pairwise distinct. *)
Lemma status_str_inj (a b : Status) : status_str a = status_str b -> a = b.
Proof. destruct a, b; simpl; intro H; try reflexivity; discriminate H. Qed.

(** ** The scenarios of the classifier *)

Example payload_with_both_markers :
  _parse_api_response (quoted "2 TB" ++ " ... " ++ quoted "Antigravity")
    = Some STATUS_SUBSCRIBED_ANTIGRAVITY.
Proof. reflexivity. Qed.

Example payload_with_storage_only :
  _parse_api_response (quoted "2 TB") = Some STATUS_SUBSCRIBED.
Proof. reflexivity. Qed.

Example payload_with_unlock_only :
  _parse_api_response (quoted "Antigravity") = None.
Proof. reflexivity. Qed.

Example markers_are_case_sensitive :
  _parse_api_response "2 tb antigravity" = None.
Proof. reflexivity. Qed.

Example link_found_in_markup :
  re_search_sheerid
    ("<a href=" ++ quoted sample_link ++ ">Verify</a>") = Some sample_link.
Proof. reflexivity. Qed.

Example detection_on_both_markers :
  fst (full_google_detection (scripted both_markers_page) 20%float initial_session)
    = Ok (true, STATUS_LINK_READY, Some sample_link).
Proof. vm_compute. reflexivity. Qed.

Example double_quote_is_code_34 :
  dq = String (Ascii.ascii_of_nat 34) EmptyString.
Proof. reflexivity. Qed.

Example signed_out_page_is_login_page :
  fst (is_on_login_page (scripted signed_out_page) initial_session) = Ok true.
Proof. reflexivity. Qed.

Example listeners_after_failed_navigation :
  listeners (snd (check_google_one_status_v2 (scripted slow_navigation_page)
                    20%float initial_session)) = [].
Proof. reflexivity. Qed.

Example detection_on_blank_page :
  fst (full_google_detection (scripted blank_page) 20%float initial_session)
    = Ok (true, STATUS_INELIGIBLE, None).
Proof. vm_compute. reflexivity. Qed.

(** * Further properties of the module *)

(** ** Markers and links in text *)

Lemma string_app_assoc (a b c : string) : (a ++ b) ++ c = a ++ (b ++ c).
Proof. induction a as [|x a IH]; simpl; [reflexivity | rewrite IH; reflexivity]. Qed.

Lemma Contains_trans (a b c : string) :
  Contains a b -> Contains b c -> Contains a c.
Proof.
  intros (p1 & q1 & ->) (p2 & q2 & ->).
  exists (p2 ++ p1), (q1 ++ q2).
  rewrite !string_app_assoc. reflexivity.
Qed.

Lemma Contains_quoted (x body : string) :
  Contains (quoted x) body -> Contains x body.
Proof.
  intros (pre & post & ->). unfold quoted.
  exists (pre ++ dq), (dq ++ post).
  rewrite !string_app_assoc. reflexivity.
Qed.

Lemma str_in_quoted (x body : string) :
  str_in (quoted x) body = true -> str_in x body = true.
Proof. rewrite !str_in_spec. apply Contains_quoted. Qed.

Lemma str_in_mono (x body body' : string) :
  Contains body body' -> str_in x body = true -> str_in x body' = true.
Proof.
  rewrite !str_in_spec. intros H1 H2. eapply Contains_trans; eauto.
Qed.

(** X1. The quoted spellings of the two markers decide nothing: a payload
    that holds a marker between double quotes holds the bare marker, so the
    classification depends only on whether the payload contains [2 TB] or
    [2TB], and whether it contains [Antigravity]. *)
Theorem quoted_spellings_are_redundant (body : string) :
  _parse_api_response body =
  if str_in "2 TB" body || str_in "2TB" body then
    if str_in "Antigravity" body then Some STATUS_SUBSCRIBED_ANTIGRAVITY
    else Some STATUS_SUBSCRIBED
  else None.
Proof.
  unfold _parse_api_response.
  pose proof (str_in_quoted "2 TB" body) as H2.
  pose proof (str_in_quoted "Antigravity" body) as HA.
  destruct (str_in "2 TB" body), (str_in "2TB" body),
    (str_in (quoted "2 TB") body); simpl;
    try (discriminate (H2 eq_refl));
    destruct (str_in "Antigravity" body),
      (str_in (quoted "Antigravity") body); simpl;
    try reflexivity; discriminate (HA eq_refl).
Qed.

(** X2. Text around a payload never takes a signal away: when a payload
    is part of a longer one, a classification [subscribed_antigravity] of
    the part is the classification of the whole, and a part that gives a
    signal makes the whole give one. *)
Theorem classification_survives_embedding (body body' : string) :
  Contains body body' ->
  (_parse_api_response body = Some STATUS_SUBSCRIBED_ANTIGRAVITY ->
   _parse_api_response body' = Some STATUS_SUBSCRIBED_ANTIGRAVITY) /\
  (_parse_api_response body <> None -> _parse_api_response body' <> None).
Proof.
  intro Hsub. unfold _parse_api_response.
  pose proof (str_in_mono "2 TB" body body' Hsub) as H1.
  pose proof (str_in_mono "2TB" body body' Hsub) as H2.
  pose proof (str_in_mono (quoted "2 TB") body body' Hsub) as H3.
  pose proof (str_in_mono "Antigravity" body body' Hsub) as H4.
  pose proof (str_in_mono (quoted "Antigravity") body body' Hsub) as H5.
  destruct (str_in "2 TB" body), (str_in "2TB" body),
    (str_in (quoted "2 TB") body), (str_in "Antigravity" body),
    (str_in (quoted "Antigravity") body);
    try rewrite (H1 eq_refl); try rewrite (H2 eq_refl);
    try rewrite (H3 eq_refl); try rewrite (H4 eq_refl);
    try rewrite (H5 eq_refl); cbn [orb]; rewrite ?orb_true_r; cbn [orb];
    (split; intro H; try discriminate H; try reflexivity;
     try (exfalso; apply H; reflexivity)).
  all: repeat match goal with
       | |- context [if ?b then _ else _] => destruct b
       end; discriminate.
Qed.

Lemma classification_survives_embedding_witness :
  _parse_api_response "[null,[[2TB]],true,[Antigravity]]"
    = Some STATUS_SUBSCRIBED_ANTIGRAVITY /\
  _parse_api_response ")]}'[[2 TB]]" <> None.
Proof.
  split.
  - apply (proj1 (classification_survives_embedding
                    "2TB]],true,[Antigravity" "[null,[[2TB]],true,[Antigravity]]"
                    (ex_intro _ "[null,[[" (ex_intro _ "]]" eq_refl)))).
    reflexivity.
  - apply (proj2 (classification_survives_embedding
                    "2 TB" ")]}'[[2 TB]]"
                    (ex_intro _ ")]}'[[" (ex_intro _ "]]" eq_refl)))).
    discriminate.
Defined.

Lemma no_quote_take_while (s : string) : no_quote (take_while not_quote s) = true.
Proof.
  induction s as [|c s IH]; simpl; [reflexivity|].
  destruct (not_quote c) eqn:Hc; simpl; [rewrite Hc; exact IH | reflexivity].
Qed.

Lemma take_while_split (f : ascii -> bool) (s : string) :
  exists rest, s = take_while f s ++ rest.
Proof.
  induction s as [|c s [rest IH]]; simpl.
  - exists "". reflexivity.
  - destruct (f c).
    + exists rest. simpl. rewrite <- IH. reflexivity.
    + exists (String c s). reflexivity.
Qed.

Lemma take_while_app (a b : string) :
  no_quote a = true ->
  take_while not_quote (a ++ b) = a ++ take_while not_quote b.
Proof.
  induction a as [|c a IH]; simpl; intro H; [reflexivity|].
  apply andb_true_iff in H. destruct H as [Hc Ha].
  rewrite Hc, IH; auto.
Qed.

Lemma Contains_cons (c : ascii) (a s : string) :
  Contains a s -> Contains a (String c s).
Proof.
  intros (pre & post & ->). exists (String c pre), post. reflexivity.
Qed.

Lemma found_here_sound (content : string) :
  startswith "https://" content = true ->
  str_in "sheerid.com" (take_while not_quote (drop 8 content)) = true ->
  startswith "https://" ("https://" ++ take_while not_quote (drop 8 content)) = true /\
  Contains "sheerid.com" ("https://" ++ take_while not_quote (drop 8 content)) /\
  no_quote ("https://" ++ take_while not_quote (drop 8 content)) = true /\
  Contains ("https://" ++ take_while not_quote (drop 8 content)) content.
Proof.
  intros Hs Hin.
  destruct (startswith_inv _ _ Hs) as [rest ->].
  change (drop 8 ("https://" ++ rest)) with rest in *.
  split; [apply startswith_app|]. split; [|split].
  - apply str_in_spec in Hin. destruct Hin as (pre & post & Hrun).
    exists ("https://" ++ pre), post. rewrite Hrun.
    rewrite !string_app_assoc. reflexivity.
  - change (no_quote ("https://" ++ take_while not_quote rest))
      with (no_quote (take_while not_quote rest)).
    apply no_quote_take_while.
  - destruct (take_while_split not_quote rest) as [tail Htail].
    exists "", tail. change ("" ++ ?x) with x.
    rewrite string_app_assoc, <- Htail. reflexivity.
Qed.

(** X3. A link that the scan of the markup returns is a piece of the
    markup that starts with [https://], names the provider domain and holds
    no quote character. *)
Theorem re_search_sheerid_sound (content link : string) :
  re_search_sheerid content = Some link ->
  startswith "https://" link = true /\
  Contains "sheerid.com" link /\
  no_quote link = true /\
  Contains link content.
Proof.
  induction content as [|c content IH]; rewrite re_search_sheerid_eq.
  - simpl. discriminate.
  - destruct (startswith "https://" (String c content)) eqn:Hs.
    + destruct (str_in "sheerid.com"
                  (take_while not_quote (drop 8 (String c content)))) eqn:Hin.
      * intro H. assert (Hl : link = "https://" ++ take_while not_quote
                                       (drop 8 (String c content)))
          by (injection H as H; symmetry; exact H).
        rewrite Hl. apply found_here_sound; assumption.
      * intro H. destruct (IH H) as (H1 & H2 & H3 & H4).
        repeat split; auto. apply Contains_cons. exact H4.
    + intro H. destruct (IH H) as (H1 & H2 & H3 & H4).
      repeat split; auto. apply Contains_cons. exact H4.
Qed.

Lemma re_search_sheerid_sound_witness :
  startswith "https://" sample_link = true /\
  Contains "sheerid.com" sample_link /\
  no_quote sample_link = true /\
  Contains sample_link ("<a href=" ++ quoted sample_link ++ ">Verify</a>").
Proof.
  apply (re_search_sheerid_sound
           ("<a href=" ++ quoted sample_link ++ ">Verify</a>") sample_link).
  reflexivity.
Defined.

(** X4. The scan of the markup misses no link: when the markup holds
    [https://], then characters that are no quotes, then [sheerid.com], the
    scan returns a link. *)
Theorem re_search_sheerid_complete (pre host post : string) :
  no_quote host = true ->
  re_search_sheerid (pre ++ "https://" ++ host ++ "sheerid.com" ++ post) <> None.
Proof.
  intros Hhost.
  induction pre as [|c pre IH].
  - change ("" ++ ?x) with x. rewrite re_search_sheerid_eq.
    rewrite startswith_app.
    change (drop 8 ("https://" ++ host ++ "sheerid.com" ++ post))
      with (host ++ "sheerid.com" ++ post).
    rewrite (take_while_app host _ Hhost).
    replace (str_in "sheerid.com"
               (host ++ take_while not_quote ("sheerid.com" ++ post)))
      with true; [discriminate|].
    symmetry. apply str_in_spec.
    exists host, (take_while not_quote post). reflexivity.
  - rewrite re_search_sheerid_eq.
    match goal with
    | |- match ?h with _ => _ end <> None => destruct h
    end; [discriminate|].
    exact IH.
Qed.

Lemma re_search_sheerid_complete_witness :
  re_search_sheerid
    ("var u = 'https://services.sheerid.com/verify/1'; var v = 2;") <> None.
Proof.
  apply (re_search_sheerid_complete
           "var u = '" "services." "/verify/1'; var v = 2;").
  reflexivity.
Defined.

(** ** The evidence extractor and the rules of the DOM classifier *)

Section Extraction.

Context {W : Type} (br : Browser W).

Lemma await_calls {A : Type} (c : Call) (op : Awaited W A) (s : Session W) :
  calls (snd (await c op s)) = c :: calls s.
Proof.
  unfold await. destruct (op (world s)) as [[rs r] w1]. simpl.
  rewrite dispatch_calls. reflexivity.
Qed.

(** X5. The anchor is preferred to the markup: when an anchor with the
    provider domain is on the page and its [href] is a non-empty string,
    the extractor returns that string after two calls, the count and the
    attribute; the markup is not fetched. *)
Theorem anchor_link_preferred (s : Session W) (n : nat) (link : string) :
  fst (locator_count br sheerid_selector s) = Ok n ->
  0 < n ->
  fst (first_get_attribute br sheerid_selector "href"
         (snd (locator_count br sheerid_selector s))) = Ok (Some link) ->
  truthy link = true ->
  _extract_sheerid_link br s =
    (Ok (Some link),
     snd (first_get_attribute br sheerid_selector "href"
            (snd (locator_count br sheerid_selector s)))) /\
  calls (snd (_extract_sheerid_link br s)) =
    get_attribute_call sheerid_selector "href"
    :: count_call sheerid_selector :: calls s.
Proof.
  intros Hcount Hpos Hattr Htruthy.
  assert (Heq : _extract_sheerid_link br s =
    (Ok (Some link),
     snd (first_get_attribute br sheerid_selector "href"
            (snd (locator_count br sheerid_selector s))))).
  { unfold _extract_sheerid_link, try_except. unfold bind at 1.
    destruct (locator_count br sheerid_selector s) as [[n'|e] s1];
      simpl in Hcount; [|discriminate].
    injection Hcount as ->. cbn [snd] in *.
    replace (0 <? n)%nat with true by (symmetry; apply Nat.ltb_lt; exact Hpos).
    unfold bind at 1.
    destruct (first_get_attribute br sheerid_selector "href" s1)
      as [[href|e] s2]; simpl in Hattr; [|discriminate].
    injection Hattr as ->. rewrite Htruthy. reflexivity. }
  split; [exact Heq|].
  rewrite Heq. cbn [snd]. unfold first_get_attribute, locator_count.
  rewrite !await_calls. reflexivity.
Qed.

(** X6. The markup is the fallback: when no anchor matches, or the first
    anchor has no [href] or an empty one, the extractor answers with the
    scan of the markup. *)
Theorem markup_is_the_fallback (s : Session W) :
  (forall content,
     fst (locator_count br sheerid_selector s) = Ok 0 ->
     fst (page_content br (snd (locator_count br sheerid_selector s)))
       = Ok content ->
     fst (_extract_sheerid_link br s) = Ok (re_search_sheerid content)) /\
  (forall n href content,
     fst (locator_count br sheerid_selector s) = Ok n ->
     0 < n ->
     fst (first_get_attribute br sheerid_selector "href"
            (snd (locator_count br sheerid_selector s))) = Ok href ->
     truthy_opt href = false ->
     fst (page_content br
            (snd (first_get_attribute br sheerid_selector "href"
                    (snd (locator_count br sheerid_selector s)))))
       = Ok content ->
     fst (_extract_sheerid_link br s) = Ok (re_search_sheerid content)).
Proof.
  split.
  - intros content Hcount Hcontent.
    unfold _extract_sheerid_link, try_except. unfold bind at 1.
    destruct (locator_count br sheerid_selector s) as [[n'|e] s1];
      simpl in Hcount; [|discriminate].
    injection Hcount as ->. cbn [snd Nat.ltb Nat.leb] in *.
    unfold bind at 1.
    destruct (page_content br s1) as [[c|e] s2]; simpl in Hcontent;
      [|discriminate].
    injection Hcontent as ->.
    destruct (re_search_sheerid content); reflexivity.
  - intros n href content Hcount Hpos Hattr Hempty Hcontent.
    unfold _extract_sheerid_link, try_except. unfold bind at 1.
    destruct (locator_count br sheerid_selector s) as [[n'|e] s1];
      simpl in Hcount; [|discriminate].
    injection Hcount as ->. cbn [snd] in *.
    replace (0 <? n)%nat with true by (symmetry; apply Nat.ltb_lt; exact Hpos).
    unfold bind at 1.
    destruct (first_get_attribute br sheerid_selector "href" s1)
      as [[href'|e] s2]; simpl in Hattr; [|discriminate].
    injection Hattr as ->. cbn [snd] in *.
    assert (Hgoal :
      fst (let (r, s') :=
             bind (page_content br)
               (fun c => match re_search_sheerid c with
                         | Some h => ret (Some h)
                         | None => ret None
                         end) s2 in
           match r with
           | Ok a => (Ok a, s')
           | Raise e => if is_Exception e then ret None s' else (Raise e, s')
           end) = Ok (re_search_sheerid content)).
    { unfold bind.
      destruct (page_content br s2) as [[c|e] s3]; simpl in Hcontent;
        [|discriminate].
      injection Hcontent as ->.
      destruct (re_search_sheerid content); reflexivity. }
    destruct href as [link|]; simpl in Hempty.
    + rewrite Hempty. exact Hgoal.
    + exact Hgoal.
Qed.

(** X7. A failure inside the extractor ends it with [None], and the
    fallback is not tried: when reading the [href] of the anchor raises,
    the extractor answers [None] without fetching the markup, whatever the
    markup holds; and when fetching the markup raises, it answers [None]. *)
Theorem extractor_failure_gives_none (s : Session W) :
  (forall n e,
     fst (locator_count br sheerid_selector s) = Ok n ->
     0 < n ->
     fst (first_get_attribute br sheerid_selector "href"
            (snd (locator_count br sheerid_selector s))) = Raise e ->
     _extract_sheerid_link br s =
       (Ok None,
        snd (first_get_attribute br sheerid_selector "href"
               (snd (locator_count br sheerid_selector s)))) /\
     calls (snd (_extract_sheerid_link br s)) =
       get_attribute_call sheerid_selector "href"
       :: count_call sheerid_selector :: calls s) /\
  (forall e,
     fst (locator_count br sheerid_selector s) = Ok 0 ->
     fst (page_content br (snd (locator_count br sheerid_selector s)))
       = Raise e ->
     fst (_extract_sheerid_link br s) = Ok None).
Proof.
  split.
  - intros n e Hcount Hpos Hattr.
    assert (Heq : _extract_sheerid_link br s =
      (Ok None,
       snd (first_get_attribute br sheerid_selector "href"
              (snd (locator_count br sheerid_selector s))))).
    { unfold _extract_sheerid_link, try_except. unfold bind at 1.
      destruct (locator_count br sheerid_selector s) as [[n'|e'] s1];
        simpl in Hcount; [|discriminate].
      injection Hcount as ->. cbn [snd] in *.
      replace (0 <? n)%nat with true by (symmetry; apply Nat.ltb_lt; exact Hpos).
      unfold bind at 1.
      destruct (first_get_attribute br sheerid_selector "href" s1)
        as [[href|e'] s2]; simpl in Hattr; [discriminate|].
      reflexivity. }
    split; [exact Heq|].
    rewrite Heq. cbn [snd]. unfold first_get_attribute, locator_count.
    rewrite !await_calls. reflexivity.
  - intros e Hcount Hcontent.
    unfold _extract_sheerid_link, try_except. unfold bind at 1.
    destruct (locator_count br sheerid_selector s) as [[n'|e'] s1];
      simpl in Hcount; [|discriminate].
    injection Hcount as ->. cbn [snd Nat.ltb Nat.leb] in *.
    unfold bind at 1.
    destruct (page_content br s1) as [[c|e'] s2]; simpl in Hcontent;
      [discriminate|].
    reflexivity.
Qed.

End Extraction.

Lemma anchor_link_preferred_witness :
  _extract_sheerid_link (scripted both_markers_page) initial_session =
    (Ok (Some sample_link),
     snd (first_get_attribute (scripted both_markers_page) sheerid_selector "href"
            (snd (locator_count (scripted both_markers_page) sheerid_selector
                    initial_session)))) /\
  calls (snd (_extract_sheerid_link (scripted both_markers_page) initial_session)) =
    [get_attribute_call sheerid_selector "href"; count_call sheerid_selector].
Proof.
  apply (anchor_link_preferred (scripted both_markers_page) initial_session 1
           sample_link).
  - reflexivity.
  - lia.
  - reflexivity.
  - reflexivity.
Defined.

Lemma markup_is_the_fallback_witness :
  fst (_extract_sheerid_link (scripted link_in_markup_page) initial_session)
    = Ok (re_search_sheerid
            ("<script>var u = " ++ quoted sample_link ++ ";</script>")).
Proof.
  apply (proj1 (markup_is_the_fallback (scripted link_in_markup_page)
                  initial_session)).
  - reflexivity.
  - reflexivity.
Defined.

Lemma extractor_failure_gives_none_witness :
  re_search_sheerid ("<a href=" ++ quoted sample_link ++ ">Verify</a>")
    = Some sample_link /\
  fst (_extract_sheerid_link (scripted broken_href_page) initial_session)
    = Ok None.
Proof.
  split; [reflexivity|].
  assert (H := proj1 (proj1 (extractor_failure_gives_none
                        (scripted broken_href_page) initial_session)
                 1 (PlaywrightError "Element is not attached to the DOM")
                 eq_refl (le_n 1) eq_refl)).
  rewrite H. reflexivity.
Defined.

Section Rules_of_the_classifier.

Context {W : Type} (br : Browser W).

(** X8. The second rule: when the pending-verification marker is absent
    and the verified marker is present, the classifier answers [verified]
    with no link right after the two counts; the evidence extractor is not
    consulted, so a verification link on the page is not reported. *)
Theorem verified_marker_rule (s : Session W) (n : nat) :
  fst (locator_count br link_ready_selector s) = Ok 0 ->
  fst (locator_count br verified_selector
         (snd (locator_count br link_ready_selector s))) = Ok n ->
  0 < n ->
  _detect_page_elements br s =
    (Ok (STATUS_VERIFIED, None),
     snd (locator_count br verified_selector
            (snd (locator_count br link_ready_selector s)))) /\
  calls (snd (_detect_page_elements br s)) =
    count_call verified_selector :: count_call link_ready_selector :: calls s.
Proof.
  intros H1 H2 Hpos.
  assert (Heq : _detect_page_elements br s =
    (Ok (STATUS_VERIFIED, None),
     snd (locator_count br verified_selector
            (snd (locator_count br link_ready_selector s))))).
  { unfold _detect_page_elements.
    set (offers := offer_loop br offer_selectors).
    unfold try_except. unfold bind at 1.
    destruct (locator_count br link_ready_selector s) as [[n1|e] s1];
      simpl in H1; [|discriminate].
    injection H1 as ->. cbn [snd Nat.ltb Nat.leb] in *. unfold bind at 1.
    destruct (locator_count br verified_selector s1) as [[n2|e] s2];
      simpl in H2; [|discriminate].
    injection H2 as ->. cbn [snd].
    destruct n as [|n']; [lia | reflexivity]. }
  split; [exact Heq|].
  rewrite Heq. cbn [snd]. unfold locator_count. rewrite !await_calls.
  reflexivity.
Qed.

(** X9. The third rule: when neither marker is on the page and the
    evidence extractor finds a link, the classifier answers [link_ready]
    with that link, and looks at no offer locator. *)
Theorem link_without_markers_rule (s : Session W) (link : string) :
  fst (locator_count br link_ready_selector s) = Ok 0 ->
  fst (locator_count br verified_selector
         (snd (locator_count br link_ready_selector s))) = Ok 0 ->
  fst (_extract_sheerid_link br
         (snd (locator_count br verified_selector
                 (snd (locator_count br link_ready_selector s)))))
    = Ok (Some link) ->
  _detect_page_elements br s =
    (Ok (STATUS_LINK_READY, Some link),
     snd (_extract_sheerid_link br
            (snd (locator_count br verified_selector
                    (snd (locator_count br link_ready_selector s)))))).
Proof.
  intros H1 H2 H3.
  unfold _detect_page_elements.
  set (offers := offer_loop br offer_selectors).
  unfold try_except. unfold bind at 1.
  destruct (locator_count br link_ready_selector s) as [[n1|e] s1];
    simpl in H1; [|discriminate].
  injection H1 as ->. cbn [snd Nat.ltb Nat.leb] in *. unfold bind at 1.
  destruct (locator_count br verified_selector s1) as [[n2|e] s2];
    simpl in H2; [|discriminate].
  injection H2 as ->. cbn [snd Nat.ltb Nat.leb] in *. unfold bind at 1.
  destruct (extract_sheerid_link_spec br s2) as [_ Hr].
  destruct (_extract_sheerid_link br s2) as [[o|e] s3];
    simpl in H3; [|discriminate].
  injection H3 as ->. simpl in Hr.
  cbn [truthy_opt snd]. rewrite (Hr link eq_refl). reflexivity.
Qed.

Lemma after_counts_calls (selectors : list string) (s : Session W) :
  calls (after_counts br selectors s) =
  (rev (count_calls selectors) ++ calls s)%list.
Proof.
  revert s. induction selectors as [|selector rest IH]; intro s.
  - reflexivity.
  - cbn [after_counts count_calls map rev]. rewrite IH.
    unfold locator_count. rewrite await_calls.
    rewrite <- app_assoc. reflexivity.
Qed.

Lemma offer_loop_step (selector : string) (rest : list string) (s : Session W) :
  offer_loop br (selector :: rest) s =
  match locator_count br selector s with
  | (Ok n, s1) =>
      if (0 <? n)%nat then (Ok (STATUS_VERIFIED, None), s1)
      else offer_loop br rest s1
  | (Raise _, s1) => offer_loop br rest s1
  end.
Proof.
  cbn [offer_loop]. unfold bind at 1. unfold try_except at 1.
  unfold bind at 1.
  destruct (locator_count br selector s) as [[n|e] s1];
    cbn [ret is_Exception]; [destruct (0 <? n)%nat|]; reflexivity.
Qed.

(** X10. The fourth rule counts the offer locators in the order of the
    list and stops at the first count that is positive.  Either every
    count finds nothing (it returns 0 or fails): then all the locators are
    counted and the answer is [ineligible].  Or some locator is the first
    whose count is positive, every count before it having found nothing:
    then the answer is [verified], given right after that count, and no
    later locator is counted. *)
Theorem offer_loop_trace (selectors : list string) (s : Session W) :
  (counts_miss br selectors s /\
   offer_loop br selectors s =
     (Ok (STATUS_INELIGIBLE, None), after_counts br selectors s) /\
   calls (snd (offer_loop br selectors s)) =
     (rev (count_calls selectors) ++ calls s)%list) \/
  (exists before selector rest n,
     selectors = (before ++ selector :: rest)%list /\
     counts_miss br before s /\
     fst (locator_count br selector (after_counts br before s)) = Ok n /\
     0 < n /\
     offer_loop br selectors s =
       (Ok (STATUS_VERIFIED, None),
        snd (locator_count br selector (after_counts br before s))) /\
     calls (snd (offer_loop br selectors s)) =
       (count_call selector :: rev (count_calls before) ++ calls s)%list).
Proof.
  revert s. induction selectors as [|selector rest IH]; intro s.
  - left. cbn. auto.
  - rewrite offer_loop_step.
    pose proof (await_calls (count_call selector) (br_count br selector) s) as Hc.
    fold (locator_count br selector) in Hc.
    assert (Hmiss : forall s1,
      snd (locator_count br selector s) = s1 ->
      match fst (locator_count br selector s) with
      | Ok n => n = 0
      | Raise _ => True
      end ->
      (counts_miss br (selector :: rest) s /\
       offer_loop br rest s1 =
         (Ok (STATUS_INELIGIBLE, None), after_counts br (selector :: rest) s) /\
       calls (snd (offer_loop br rest s1)) =
         (rev (count_calls (selector :: rest)) ++ calls s)%list) \/
      (exists before selector' rest' n,
         (selector :: rest) = (before ++ selector' :: rest')%list /\
         counts_miss br before s /\
         fst (locator_count br selector' (after_counts br before s)) = Ok n /\
         0 < n /\
         offer_loop br rest s1 =
           (Ok (STATUS_VERIFIED, None),
            snd (locator_count br selector' (after_counts br before s))) /\
         calls (snd (offer_loop br rest s1)) =
           (count_call selector' :: rev (count_calls before) ++ calls s)%list)).
    { intros s1 Hs1 Hnone. rewrite Hs1 in Hc.
      destruct (IH s1)
        as [(Hm & Heq & Hcalls)
           | (before & selector' & rest' & n & E & Hm & Hcnt & Hpos & Heq & Hcalls)].
      - left. cbn [counts_miss after_counts count_calls map rev].
        rewrite Hs1. split; [split; assumption|]. split; [exact Heq|].
        rewrite Hcalls, Hc, <- app_assoc. reflexivity.
      - right. exists (selector :: before), selector', rest', n.
        cbn [counts_miss after_counts count_calls map rev app].
        rewrite Hs1. split; [rewrite E; reflexivity|].
        split; [split; assumption|]. split; [exact Hcnt|].
        split; [exact Hpos|]. split; [exact Heq|].
        rewrite Hcalls, Hc, <- app_assoc. reflexivity. }
    destruct (locator_count br selector s) as [[n|e] s1] eqn:Hcount;
      cbn [fst snd] in *.
    + destruct (0 <? n)%nat eqn:Hn.
      * right. exists [], selector, rest, n.
        cbn [app counts_miss after_counts count_calls map rev].
        rewrite Hcount. cbn [fst snd].
        split; [reflexivity|]. split; [exact I|]. split; [reflexivity|].
        split; [apply Nat.ltb_lt; exact Hn|]. split; [reflexivity|].
        exact Hc.
      * apply Hmiss; [reflexivity|].
        apply Nat.ltb_ge in Hn. lia.
    + apply Hmiss; [reflexivity | exact I].
Qed.

(** X11. A page that shows nothing is [ineligible]: when every count is
    0 and the markup holds no link, the classifier answers [ineligible]
    with no link, after looking at both markers, the anchor, the markup and
    the three offer locators, in this order. *)
Theorem nothing_found_is_ineligible (s : Session W) :
  (forall selector w, exists rs w',
      br_count br selector w = ((rs, Ok 0), w')) ->
  (forall w, exists rs content w',
      br_content br w = ((rs, Ok content), w') /\
      re_search_sheerid content = None) ->
  fst (_detect_page_elements br s) = Ok (STATUS_INELIGIBLE, None) /\
  calls (snd (_detect_page_elements br s)) =
    (rev (count_calls offer_selectors)
     ++ content_call
     :: count_call sheerid_selector
     :: count_call verified_selector
     :: count_call link_ready_selector
     :: calls s)%list.
Proof.
  intros Hcount Hcontent.
  unfold _detect_page_elements, _extract_sheerid_link, offer_selectors,
    offer_loop, try_except, bind, locator_count, page_content, await.
  repeat (match goal with
          | |- context [br_count br ?sel ?w] =>
              let rs := fresh "rs" in
              let w' := fresh "w" in
              let E := fresh "E" in
              destruct (Hcount sel w) as (rs & w' & E); rewrite E; clear E
          | |- context [br_content br ?w] =>
              let rs := fresh "rs" in
              let c := fresh "c" in
              let w' := fresh "w" in
              let E := fresh "E" in
              let N := fresh "N" in
              destruct (Hcontent w) as (rs & c & w' & E & N);
              rewrite E, N; clear E
          end; cbn [fst snd Nat.ltb Nat.leb ret is_Exception world truthy_opt]).
  cbn [fst snd]. split; [reflexivity|].
  repeat (rewrite dispatch_calls; cbn [calls]).
  reflexivity.
Qed.

End Rules_of_the_classifier.

Lemma verified_marker_rule_witness :
  fst (_extract_sheerid_link (scripted verified_with_link_page) initial_session)
    = Ok (Some sample_link) /\
  _detect_page_elements (scripted verified_with_link_page) initial_session =
    (Ok (STATUS_VERIFIED, None),
     snd (locator_count (scripted verified_with_link_page) verified_selector
            (snd (locator_count (scripted verified_with_link_page)
                    link_ready_selector initial_session)))) /\
  calls (snd (_detect_page_elements (scripted verified_with_link_page)
                initial_session)) =
    [count_call verified_selector; count_call link_ready_selector].
Proof.
  split; [reflexivity|].
  apply (verified_marker_rule (scripted verified_with_link_page)
           initial_session 1).
  - reflexivity.
  - reflexivity.
  - lia.
Defined.

Lemma link_without_markers_rule_witness :
  fst (_detect_page_elements (scripted link_in_markup_page) initial_session)
    = Ok (STATUS_LINK_READY, Some sample_link).
Proof.
  rewrite (link_without_markers_rule (scripted link_in_markup_page)
             initial_session sample_link eq_refl eq_refl eq_refl).
  reflexivity.
Defined.

Lemma nothing_found_is_ineligible_witness :
  fst (_detect_page_elements (scripted blank_page) initial_session)
    = Ok (STATUS_INELIGIBLE, None) /\
  calls (snd (_detect_page_elements (scripted blank_page) initial_session)) =
    (rev (count_calls offer_selectors)
     ++ [ content_call;
          count_call sheerid_selector;
          count_call verified_selector;
          count_call link_ready_selector ])%list.
Proof.
  apply (nothing_found_is_ineligible (scripted blank_page) initial_session).
  - intros selector w. exists [], w. reflexivity.
  - intros w. exists [], "", w. split; reflexivity.
Defined.

(** ** The login detector *)

Section Login.

Context {W : Type} (br : Browser W).

Lemma after_waits_calls (timeout : float) (selectors : list string)
    (s : Session W) :
  calls (after_waits br timeout selectors s) =
  (rev (visible_calls timeout selectors) ++ calls s)%list.
Proof.
  revert s. induction selectors as [|selector rest IH]; intro s.
  - reflexivity.
  - cbn [after_waits visible_calls map rev]. rewrite IH.
    unfold expect_to_be_visible. rewrite await_calls.
    rewrite <- app_assoc. reflexivity.
Qed.

Lemma avatar_loop_step (timeout : float) (selector : string)
    (rest : list string) (s : Session W) :
  avatar_loop br timeout (selector :: rest) s =
  match expect_to_be_visible br selector (timeout * 1000)%float s with
  | (Ok _, s1) => (Ok true, s1)
  | (Raise _, s1) => avatar_loop br timeout rest s1
  end.
Proof.
  cbn [avatar_loop]. unfold try_except at 1. unfold bind at 1.
  destruct (expect_to_be_visible br selector (timeout * 1000)%float s)
    as [[[]|e] s1]; reflexivity.
Qed.

(** The loop over the avatar locators, by the outcomes of its waits. *)
Lemma avatar_loop_run (timeout : float) (selectors : list string)
    (s : Session W) :
  (waits_fail br timeout selectors s /\
   avatar_loop br timeout selectors s =
     (Ok false, after_waits br timeout selectors s)) \/
  (exists before selector rest,
     selectors = (before ++ selector :: rest)%list /\
     waits_fail br timeout before s /\
     fst (expect_to_be_visible br selector (timeout * 1000)%float
            (after_waits br timeout before s)) = Ok tt /\
     avatar_loop br timeout selectors s =
       (Ok true,
        snd (expect_to_be_visible br selector (timeout * 1000)%float
               (after_waits br timeout before s)))).
Proof.
  revert s. induction selectors as [|selector rest IH]; intro s.
  - left. cbn. auto.
  - rewrite avatar_loop_step.
    destruct (expect_to_be_visible br selector (timeout * 1000)%float s)
      as [[[]|e] s1] eqn:Hwait.
    + right. exists [], selector, rest.
      cbn [app waits_fail after_waits]. rewrite Hwait. auto.
    + destruct (IH s1)
        as [(Hf & Heq) | (before & selector' & rest' & E & Hf & Hv & Heq)].
      * left. cbn [waits_fail after_waits]. rewrite Hwait. cbn [fst snd].
        split; [split; [exists e; reflexivity | exact Hf] | exact Heq].
      * right. exists (selector :: before), selector', rest'.
        cbn [app waits_fail after_waits]. rewrite Hwait. cbn [fst snd].
        split; [rewrite E; reflexivity|].
        split; [split; [exists e; reflexivity | exact Hf]|].
        split; [exact Hv | exact Heq].
Qed.

(** X12. The login detector navigates once and then waits on the avatar
    locators in the order of the list, stopping at the first that becomes
    visible.  One of three things happens.  The navigation fails: the
    answer is [False] and no wait is made.  The navigation succeeds and
    the wait on each of the four locators fails: the answer is [False],
    after the four waits.  Or some locator is the first that becomes
    visible, the wait on every locator before it having failed: the answer
    is [True], given right after that wait, and no later locator is waited
    on. *)
Theorem login_tries_locators_in_order (timeout : float) (s : Session W) :
  ((exists e,
      fst (page_goto br accounts_url "domcontentloaded" (timeout * 1000)%float s)
        = Raise e) /\
   check_google_login_by_avatar br timeout s =
     (Ok false,
      snd (page_goto br accounts_url "domcontentloaded" (timeout * 1000)%float s)) /\
   calls (snd (check_google_login_by_avatar br timeout s)) =
     goto_call accounts_url "domcontentloaded" (timeout * 1000)%float :: calls s) \/
  (fst (page_goto br accounts_url "domcontentloaded" (timeout * 1000)%float s)
     = Ok tt /\
   waits_fail br timeout avatar_selectors
     (snd (page_goto br accounts_url "domcontentloaded" (timeout * 1000)%float s)) /\
   check_google_login_by_avatar br timeout s =
     (Ok false,
      after_waits br timeout avatar_selectors
        (snd (page_goto br accounts_url "domcontentloaded"
                (timeout * 1000)%float s))) /\
   calls (snd (check_google_login_by_avatar br timeout s)) =
     (rev (visible_calls timeout avatar_selectors)
      ++ goto_call accounts_url "domcontentloaded" (timeout * 1000)%float
      :: calls s)%list) \/
  (fst (page_goto br accounts_url "domcontentloaded" (timeout * 1000)%float s)
     = Ok tt /\
   exists before selector rest,
     avatar_selectors = (before ++ selector :: rest)%list /\
     waits_fail br timeout before
       (snd (page_goto br accounts_url "domcontentloaded"
               (timeout * 1000)%float s)) /\
     fst (expect_to_be_visible br selector (timeout * 1000)%float
            (after_waits br timeout before
               (snd (page_goto br accounts_url "domcontentloaded"
                       (timeout * 1000)%float s)))) = Ok tt /\
     check_google_login_by_avatar br timeout s =
       (Ok true,
        snd (expect_to_be_visible br selector (timeout * 1000)%float
               (after_waits br timeout before
                  (snd (page_goto br accounts_url "domcontentloaded"
                          (timeout * 1000)%float s))))) /\
     calls (snd (check_google_login_by_avatar br timeout s)) =
       (to_be_visible_call selector (timeout * 1000)%float
        :: rev (visible_calls timeout before)
        ++ goto_call accounts_url "domcontentloaded" (timeout * 1000)%float
        :: calls s)%list).
Proof.
  assert (Heq : check_google_login_by_avatar br timeout s =
    match page_goto br accounts_url "domcontentloaded" (timeout * 1000)%float s with
    | (Ok _, s1) => avatar_loop br timeout avatar_selectors s1
    | (Raise _, s1) => (Ok false, s1)
    end).
  { unfold check_google_login_by_avatar, try_except. unfold bind at 1.
    destruct (page_goto br accounts_url "domcontentloaded"
                (timeout * 1000)%float s) as [[[]|e] s1]; [|reflexivity].
    destruct (avatar_loop_spec br timeout avatar_selectors s1) as [_ Hr].
    destruct (avatar_loop br timeout avatar_selectors s1) as [[b|e] s2];
      simpl in Hr; [reflexivity | contradiction]. }
  rewrite Heq. clear Heq.
  pose proof (await_calls
                (goto_call accounts_url "domcontentloaded" (timeout * 1000)%float)
                (br_goto br accounts_url "domcontentloaded" (timeout * 1000)%float)
                s) as Hc.
  fold (page_goto br accounts_url "domcontentloaded" (timeout * 1000)%float) in Hc.
  destruct (page_goto br accounts_url "domcontentloaded" (timeout * 1000)%float s)
    as [[[]|e] s1]; cbn [snd fst] in *.
  - destruct (avatar_loop_run timeout avatar_selectors s1)
      as [(Hf & Hloop) | (before & selector & rest & E & Hf & Hv & Hloop)].
    + right. left. rewrite Hloop. cbn [snd].
      rewrite after_waits_calls, Hc. auto.
    + right. right. split; [reflexivity|].
      exists before, selector, rest. rewrite Hloop. cbn [snd].
      split; [exact E|]. split; [exact Hf|]. split; [exact Hv|].
      split; [reflexivity|].
      unfold expect_to_be_visible. rewrite await_calls.
      rewrite after_waits_calls, Hc. reflexivity.
  - left. split; [exists e; reflexivity|]. auto.
Qed.

(** X13. [is_on_login_page] answers [True] exactly when the URL of the
    page can be read and contains one of the three sign-in paths; it leaves
    the session as it is. *)
Theorem is_on_login_page_spec (s : Session W) :
  exists b,
    is_on_login_page br s = (Ok b, s) /\
    (b = true <->
     exists current_url,
       br_url br (world s) = Ok current_url /\
       HasMarker login_indicators current_url).
Proof.
  unfold is_on_login_page, try_except, bind, page_url.
  destruct (br_url br (world s)) as [u|e]; cbn [ret is_Exception].
  - eexists. split; [reflexivity|].
    rewrite existsb_str_in. split.
    + intro H. exists u. auto.
    + intros (u' & Hu & H). injection Hu as <-. exact H.
  - exists false. split; [reflexivity|]. split; [discriminate|].
    intros (u' & Hu & _). discriminate Hu.
Qed.

End Login.

(** ** The payload the check classifies *)

Lemma handle_all_app (rs1 rs2 : list Response) (c : Cell) :
  handle_all (rs1 ++ rs2) c = handle_all rs2 (handle_all rs1 c).
Proof. unfold handle_all. apply fold_left_app. Qed.

Lemma handle_all_new_cell (rs : list Response) :
  api_response_data (handle_all rs new_cell) = last_captured rs /\
  response_received (handle_all rs new_cell) = is_some (last_captured rs).
Proof.
  assert (H : forall c,
    api_response_data (handle_all rs c) =
      match last_captured rs with
      | Some body => Some body
      | None => api_response_data c
      end /\
    response_received (handle_all rs c) =
      response_received c || is_some (last_captured rs)).
  { unfold handle_all. induction rs as [|r rs IH]; intro c; simpl.
    - rewrite orb_false_r. split; reflexivity.
    - destruct (IH (handle_response r c)) as [Hd Hr].
      rewrite Hd, Hr, handle_response_data, handle_response_received.
      destruct (last_captured rs); simpl.
      + rewrite !orb_true_r. split; reflexivity.
      + rewrite orb_false_r. split; reflexivity. }
  destruct (H new_cell) as [Hd Hr]. rewrite Hd, Hr. simpl.
  destruct (last_captured rs); split; reflexivity.
Qed.

Lemma parse_api_response_truthy (body : string) (st : Status) :
  _parse_api_response body = Some st -> truthy body = true.
Proof. destruct body; [discriminate | reflexivity]. Qed.

Section Payload.

Context {W : Type} (br : Browser W).

Lemma registered_armed (s : Session W) :
  registered (fresh_handler s) (armed s) = true.
Proof.
  unfold registered. rewrite armed_listeners, existsb_app. simpl.
  rewrite Nat.eqb_refl. apply orb_true_iff. right. reflexivity.
Qed.

Lemma navigated_eq (timeout : float) (s : Session W) :
  navigated br timeout s =
  dispatch
    (fst (fst (br_goto br one_url "domcontentloaded" (timeout * 1000)%float
                 (world (armed s)))))
    (mkSession
       (snd (br_goto br one_url "domcontentloaded" (timeout * 1000)%float
               (world (armed s))))
       (listeners (armed s)) (cells (armed s))
       (goto_call one_url "domcontentloaded" (timeout * 1000)%float
        :: calls (armed s))).
Proof.
  unfold navigated, page_goto, await.
  destruct (br_goto br one_url "domcontentloaded" (timeout * 1000)%float
              (world (armed s))) as [[rs r] w1].
  reflexivity.
Qed.

Lemma awaited_eq (timeout : float) (s : Session W) :
  awaited br timeout s =
  dispatch
    (fst (br_event_loop br timeout (world (navigated br timeout s))))
    (mkSession
       (snd (br_event_loop br timeout (world (navigated br timeout s))))
       (listeners (navigated br timeout s)) (cells (navigated br timeout s))
       (wait_for_call timeout :: calls (navigated br timeout s))).
Proof.
  unfold awaited, try_except, wait_for_response_received.
  destruct (br_event_loop br timeout (world (navigated br timeout s)))
    as [rs w2].
  (destruct (timeout <=? 0)%float;
   [|match goal with
     | |- context [response_received ?c] =>
         destruct (response_received c)
     end]); reflexivity.
Qed.

Lemma settled_eq (timeout : float) (s : Session W) :
  settled br timeout s =
  dispatch
    (fst (fst (br_wait_for_load_state br "networkidle" 10000%float
                 (world (awaited br timeout s)))))
    (mkSession
       (snd (br_wait_for_load_state br "networkidle" 10000%float
               (world (awaited br timeout s))))
       (listeners (awaited br timeout s)) (cells (awaited br timeout s))
       (wait_for_load_state_call "networkidle" 10000%float
        :: calls (awaited br timeout s))).
Proof.
  unfold settled, page_wait_for_load_state, await.
  destruct (br_wait_for_load_state br "networkidle" 10000%float
              (world (awaited br timeout s))) as [[rs r] w3].
  reflexivity.
Qed.

Lemma stage_listeners (timeout : float) (s : Session W) :
  listeners (navigated br timeout s) = listeners (armed s) /\
  listeners (awaited br timeout s) = listeners (armed s) /\
  listeners (settled br timeout s) = listeners (armed s).
Proof.
  assert (H1 : listeners (navigated br timeout s) = listeners (armed s))
    by (rewrite navigated_eq, dispatch_listeners; reflexivity).
  assert (H2 : listeners (awaited br timeout s) = listeners (armed s))
    by (rewrite awaited_eq, dispatch_listeners; exact H1).
  split; [exact H1|]. split; [exact H2|].
  rewrite settled_eq, dispatch_listeners. exact H2.
Qed.

Lemma stage_calls (timeout : float) (s : Session W) :
  calls (settled br timeout s) =
    wait_for_load_state_call "networkidle" 10000%float
    :: wait_for_call timeout
    :: goto_call one_url "domcontentloaded" (timeout * 1000)%float
    :: page_on_call "response" (fresh_handler s)
    :: calls s.
Proof.
  rewrite settled_eq, dispatch_calls. cbn [calls].
  rewrite awaited_eq, dispatch_calls. cbn [calls].
  rewrite navigated_eq, dispatch_calls. cbn [calls].
  rewrite armed_calls. reflexivity.
Qed.

Lemma settled_cell (timeout : float) (s : Session W) :
  cells (settled br timeout s) (fresh_handler s) =
  handle_all (seen br timeout s) new_cell.
Proof.
  destruct (stage_listeners timeout s) as (L1 & L2 & _).
  pose proof (registered_armed s) as Hreg.
  unfold seen. rewrite !handle_all_app.
  rewrite settled_eq, dispatch_cell.
  replace (registered (fresh_handler s) _) with true
    by (unfold registered in *; cbn [listeners]; rewrite L2; auto).
  cbn [cells]. f_equal.
  rewrite awaited_eq, dispatch_cell.
  replace (registered (fresh_handler s) _) with true
    by (unfold registered in *; cbn [listeners]; rewrite L1; auto).
  cbn [cells]. f_equal.
  rewrite navigated_eq, dispatch_cell.
  replace (registered (fresh_handler s) _) with true
    by (unfold registered in *; cbn [listeners]; auto).
  cbn [cells]. f_equal. apply armed_cell.
Qed.

(** X14. The closure of the check holds what the responses of its three
    waits leave: after the wait for the quiet network the stored payload is
    the body of the latest response, among those delivered during the
    navigation and the two waits, that named the backend call and could be
    read, and the event is set exactly when there is such a response. *)
Theorem payload_is_latest_seen (timeout : float) (s : Session W) :
  cells (armed s) (fresh_handler s) = new_cell /\
  cells (settled br timeout s) (fresh_handler s)
    = handle_all (seen br timeout s) new_cell /\
  api_response_data (cells (settled br timeout s) (fresh_handler s))
    = last_captured (seen br timeout s) /\
  response_received (cells (settled br timeout s) (fresh_handler s))
    = is_some (last_captured (seen br timeout s)).
Proof.
  split; [apply armed_cell|]. split; [apply settled_cell|].
  rewrite settled_cell. apply handle_all_new_cell.
Qed.

(** The session the check ends in when its body returns in [s']. *)
Lemma check_after_body (timeout : float) (s s' : Session W)
    (r : Status * option string) :
  check_body br (fresh_handler s) timeout (armed s) = (Ok r, s') ->
  listeners s' = listeners (armed s) ->
  fst (check_google_one_status_v2 br timeout s) = Ok r /\
  calls (snd (check_google_one_status_v2 br timeout s)) =
    page_remove_listener_call "response" (fresh_handler s) :: calls s'.
Proof.
  intros Hbody HL.
  rewrite check_unfold. unfold try_finally, try_except. rewrite Hbody.
  unfold page_remove_listener.
  replace (registered (fresh_handler s) s') with true.
  - split; reflexivity.
  - symmetry. pose proof (registered_armed s) as Hreg.
    unfold registered in *. rewrite HL. exact Hreg.
Qed.

(** X15. A captured payload that gives a signal decides: when the
    navigation and the wait for the quiet network succeed and the latest
    captured payload classifies, the check answers that status with no
    link, and the page elements are never queried: the calls of the check
    are the registration, the navigation, the two waits and the removal. *)
Theorem payload_takes_precedence (timeout : float) (s : Session W)
    (body : string) (st : Status) :
  fst (page_goto br one_url "domcontentloaded" (timeout * 1000)%float (armed s))
    = Ok tt ->
  fst (page_wait_for_load_state br "networkidle" 10000%float (awaited br timeout s))
    = Ok tt ->
  last_captured (seen br timeout s) = Some body ->
  _parse_api_response body = Some st ->
  fst (check_google_one_status_v2 br timeout s) = Ok (st, None) /\
  calls (snd (check_google_one_status_v2 br timeout s)) =
    page_remove_listener_call "response" (fresh_handler s)
    :: wait_for_load_state_call "networkidle" 10000%float
    :: wait_for_call timeout
    :: goto_call one_url "domcontentloaded" (timeout * 1000)%float
    :: page_on_call "response" (fresh_handler s)
    :: calls s.
Proof.
  intros Hgoto Hidle Hlast Hparse.
  assert (Hdata :
    api_response_data (cells (settled br timeout s) (fresh_handler s))
      = last_captured (seen br timeout s))
    by (rewrite settled_cell; apply handle_all_new_cell).
  assert (Hbody : check_body br (fresh_handler s) timeout (armed s) =
                  (Ok (st, None), settled br timeout s)).
  { rewrite check_body_unfold, Hgoto, Hidle.
    unfold classify, bind, get_api_response_data.
    rewrite Hdata, Hlast, (parse_api_response_truthy body st Hparse), Hparse.
    reflexivity. }
  destruct (stage_listeners timeout s) as (_ & _ & L3).
  destruct (check_after_body timeout s _ _ Hbody L3) as [Hr Hc].
  split; [exact Hr|]. rewrite Hc, stage_calls. reflexivity.
Qed.

(** X16. Without a signal from the payload the page decides: when the
    navigation and the wait for the quiet network succeed and no payload
    was captured, or the latest one gives no signal, the answer of the
    check is the answer of the DOM classifier in the session the waits
    left. *)
Theorem page_decides_without_signal (timeout : float) (s : Session W) :
  fst (page_goto br one_url "domcontentloaded" (timeout * 1000)%float (armed s))
    = Ok tt ->
  fst (page_wait_for_load_state br "networkidle" 10000%float (awaited br timeout s))
    = Ok tt ->
  (last_captured (seen br timeout s) = None \/
   exists body, last_captured (seen br timeout s) = Some body /\
                _parse_api_response body = None) ->
  fst (check_google_one_status_v2 br timeout s)
    = fst (_detect_page_elements br (settled br timeout s)).
Proof.
  intros Hgoto Hidle Hnone.
  destruct (check_classifies br timeout s Hgoto Hidle) as [Heq _].
  rewrite Heq. unfold classify, bind, get_api_response_data.
  assert (Hdata :
    api_response_data (cells (settled br timeout s) (fresh_handler s))
      = last_captured (seen br timeout s))
    by (rewrite settled_cell; apply handle_all_new_cell).
  rewrite Hdata.
  destruct Hnone as [-> | (body & -> & Hparse)]; [reflexivity|].
  rewrite Hparse. destruct (truthy body); reflexivity.
Qed.

End Payload.

Lemma payload_takes_precedence_witness :
  fst (_detect_page_elements (scripted subscribed_page)
         (settled (scripted subscribed_page) 20%float initial_session))
    = Ok (STATUS_LINK_READY, Some sample_link) /\
  fst (check_google_one_status_v2 (scripted subscribed_page) 20%float
         initial_session) = Ok (STATUS_SUBSCRIBED, None) /\
  calls (snd (check_google_one_status_v2 (scripted subscribed_page) 20%float
                initial_session)) =
    [ page_remove_listener_call "response" 1;
      wait_for_load_state_call "networkidle" 10000%float;
      wait_for_call 20%float;
      goto_call one_url "domcontentloaded" (20 * 1000)%float;
      page_on_call "response" 1 ].
Proof.
  split; [reflexivity|].
  apply (payload_takes_precedence (scripted subscribed_page) 20%float
           initial_session "[[2 TB]]" STATUS_SUBSCRIBED).
  - reflexivity.
  - reflexivity.
  - reflexivity.
  - reflexivity.
Defined.

Lemma page_decides_without_signal_witness :
  fst (check_google_one_status_v2 (scripted two_answers_page) 20%float
         initial_session)
    = fst (_detect_page_elements (scripted two_answers_page)
             (settled (scripted two_answers_page) 20%float initial_session)) /\
  fst (check_google_one_status_v2 (scripted silent_verified_page) 20%float
         initial_session)
    = fst (_detect_page_elements (scripted silent_verified_page)
             (settled (scripted silent_verified_page) 20%float initial_session)).
Proof.
  split.
  - apply (page_decides_without_signal (scripted two_answers_page) 20%float
             initial_session).
    + reflexivity.
    + reflexivity.
    + right. exists "[]". split; reflexivity.
  - apply (page_decides_without_signal (scripted silent_verified_page) 20%float
             initial_session).
    + reflexivity.
    + reflexivity.
    + left. reflexivity.
Defined.

(** ** The calls of the check and the whole detection *)

Section Detection.

Context {W : Type} (br : Browser W).

Lemma quiet_ret {A : Type} (a : A) :
  triple (W:=W) quiet_call (ret a) (fun _ => True) (fun _ => True).
Proof. apply triple_ret. exact I. Qed.

Lemma quiet_bind {A B : Type} (m : M W A) (k : A -> M W B) :
  triple quiet_call m (fun _ => True) (fun _ => True) ->
  (forall a, triple quiet_call (k a) (fun _ => True) (fun _ => True)) ->
  triple quiet_call (bind m k) (fun _ => True) (fun _ => True).
Proof. intros Hm Hk. eapply triple_bind; eauto. Qed.

Lemma quiet_try {A : Type} (catches : exn -> bool) (m : M W A)
    (handler : exn -> M W A) :
  triple quiet_call m (fun _ => True) (fun _ => True) ->
  (forall e, triple quiet_call (handler e) (fun _ => True) (fun _ => True)) ->
  triple quiet_call (try_except catches m handler) (fun _ => True) (fun _ => True).
Proof.
  intros Hm Hh. eapply triple_try_except with (E0 := fun _ => True); eauto.
Qed.

Lemma quiet_await {A : Type} (c : Call) (op : Awaited W A) :
  quiet_call c ->
  triple quiet_call (await c op) (fun _ => True) (fun _ => True).
Proof. apply triple_await. Qed.

Ltac quiet :=
  repeat first
    [ apply quiet_ret
    | apply quiet_await; reflexivity
    | apply quiet_bind; [|intro]
    | apply quiet_try; [|intro]
    | match goal with
      | |- triple _ (if ?b then _ else _) _ _ => destruct b
      | |- triple _ (match ?o with Some _ => _ | None => _ end) _ _ => destruct o
      end ].

Lemma extract_sheerid_link_quiet :
  triple quiet_call (_extract_sheerid_link br) (fun _ => True) (fun _ => True).
Proof.
  unfold _extract_sheerid_link, locator_count, first_get_attribute, page_content.
  cbv zeta. quiet.
Qed.

Lemma offer_loop_quiet (selectors : list string) :
  triple quiet_call (offer_loop br selectors) (fun _ => True) (fun _ => True).
Proof.
  induction selectors as [|selector rest IH]; cbn [offer_loop].
  - quiet.
  - unfold locator_count. apply quiet_bind; [quiet|].
    intros [|]; [quiet | exact IH].
Qed.

Lemma detect_page_elements_quiet :
  triple quiet_call (_detect_page_elements br) (fun _ => True) (fun _ => True).
Proof.
  unfold _detect_page_elements.
  apply quiet_try; [|intro; quiet].
  apply quiet_bind; [unfold locator_count; quiet|]. intro n1.
  destruct (0 <? n1)%nat.
  - apply quiet_bind; [apply extract_sheerid_link_quiet | intro; quiet].
  - apply quiet_bind; [unfold locator_count; quiet|]. intro n2.
    destruct (0 <? n2)%nat; [quiet|].
    apply quiet_bind; [apply extract_sheerid_link_quiet|]. intro o.
    destruct (truthy_opt o); [quiet | apply offer_loop_quiet].
Qed.

Lemma check_body_quiet (h : nat) (timeout : float) :
  triple quiet_call (check_body br h timeout) (fun _ => True) (fun _ => True).
Proof.
  unfold check_body, page_goto, page_wait_for_load_state.
  apply quiet_bind; [quiet|]. intros _.
  apply quiet_bind.
  - apply quiet_try; [|intro; quiet].
    apply triple_weaken with (P := quiet_call) (Q := fun _ => True)
                             (E := fun e => e = AsyncioTimeoutError);
      [apply triple_wait_for; reflexivity | auto | auto | auto].
  - intros _. apply quiet_bind; [quiet|]. intros _.
    unfold classify. apply quiet_bind.
    + intro s. simpl. split; [apply frame_refl | exact I].
    + intros [body|]; [|apply detect_page_elements_quiet].
      destruct (truthy body); [|apply detect_page_elements_quiet].
      destruct (_parse_api_response body); [quiet|].
      apply detect_page_elements_quiet.
Qed.

(** X17. The check registers its listener as its first call and removes
    it as its last one, whatever happens in between, and makes no other
    call that touches the listeners of the page. *)
Theorem listener_calls_bracket_the_check (timeout : float) (s : Session W) :
  exists mid,
    calls (snd (check_google_one_status_v2 br timeout s)) =
      (page_remove_listener_call "response" (fresh_handler s)
       :: mid ++ page_on_call "response" (fresh_handler s) :: calls s)%list /\
    Forall quiet_call mid.
Proof.
  rewrite check_unfold. unfold try_finally, try_except.
  destruct (check_body_quiet (fresh_handler s) timeout (armed s))
    as [[HL (mid & Hcalls & Hmid)] _].
  rewrite armed_calls in Hcalls.
  pose proof (registered_armed s) as Hreg.
  assert (Hrem : forall s' : Session W,
            listeners s' = listeners (armed s) ->
            calls (snd (page_remove_listener "response" (fresh_handler s) s'))
              = page_remove_listener_call "response" (fresh_handler s) :: calls s' /\
            exists u, fst (page_remove_listener "response" (fresh_handler s) s')
                        = Ok u).
  { intros s' Hs'. unfold page_remove_listener.
    replace (registered (fresh_handler s) s') with true
      by (unfold registered in *; rewrite Hs'; auto).
    split; [reflexivity | exists tt; reflexivity]. }
  exists mid. split; [|exact Hmid].
  destruct (check_body br (fresh_handler s) timeout (armed s)) as [[r|e] s1];
    cbn [snd is_Exception ret] in *.
  - destruct (Hrem s1 HL) as [Hc (u & Hu)].
    destruct (page_remove_listener "response" (fresh_handler s) s1)
      as [[[]|e] s2]; simpl in *; [|discriminate].
    rewrite Hc, Hcalls. reflexivity.
  - destruct (Hrem s1 HL) as [Hc (u & Hu)].
    destruct (page_remove_listener "response" (fresh_handler s) s1)
      as [[[]|e'] s2]; simpl in *; [|discriminate].
    rewrite Hc, Hcalls. reflexivity.
Qed.

Lemma classified_statuses (r : Status * option string) :
  classified r ->
  fst r = STATUS_SUBSCRIBED_ANTIGRAVITY \/ fst r = STATUS_SUBSCRIBED \/
  fst r = STATUS_LINK_READY \/ fst r = STATUS_VERIFIED \/
  fst r = STATUS_INELIGIBLE.
Proof.
  unfold classified, dom_result.
  intros [-> | [-> | [[H | [-> | ->]] _]]]; simpl; auto.
Qed.

(** X18. The flag and the status of a detection agree: the flag is the
    answer of the login detector, it is [False] exactly when the status is
    [not_logged_in], and when it is [True] the status and the link are the
    answer of the qualification check run in the session the login detector
    left.  The status is never [pending_check]. *)
Theorem detection_flag_matches_status (timeout : float) (s : Session W) :
  exists b st link,
    fst (full_google_detection br timeout s) = Ok (b, st, link) /\
    fst (check_google_login_by_avatar br timeout s) = Ok b /\
    (b = false <-> st = STATUS_NOT_LOGGED_IN) /\
    (b = true ->
     fst (check_google_one_status_v2 br timeout
            (snd (check_google_login_by_avatar br timeout s))) = Ok (st, link)) /\
    st <> STATUS_PENDING.
Proof.
  unfold full_google_detection, bind.
  destruct (check_google_login_by_avatar_spec br timeout s) as [_ Hlogin].
  destruct (check_google_login_by_avatar br timeout s) as [[b|e] s1];
    simpl in Hlogin; [|contradiction].
  destruct b; cbn [negb fst snd].
  - destruct (check_total br timeout s1) as ([st link] & Hr & Hc).
    destruct (check_google_one_status_v2 br timeout s1) as [[r|e] s2];
      simpl in Hr; [|discriminate].
    injection Hr as ->. cbn [fst snd].
    exists true, st, link. split; [reflexivity|]. split; [reflexivity|].
    assert (Hst : st <> STATUS_NOT_LOGGED_IN /\ st <> STATUS_PENDING).
    { destruct Hc as [Herr | Hc].
      - injection Herr as -> ->. split; discriminate.
      - apply classified_statuses in Hc. simpl in Hc.
        destruct Hc as [-> | [-> | [-> | [-> | ->]]]]; split; discriminate. }
    destruct Hst as [H1 H2].
    split; [split; [discriminate | intro H; contradiction]|].
    split; [reflexivity | exact H2].
  - exists false, STATUS_NOT_LOGGED_IN, None.
    split; [reflexivity|]. split; [reflexivity|].
    split; [split; reflexivity|]. split; [discriminate | discriminate].
Qed.

End Detection.

(** ** The label table *)

(** X19. The label table covers the statuses: its keys are pairwise
    distinct, every status constant is a key, two different statuses have
    different labels, and a string that is no status constant is no key. *)
Theorem every_status_has_a_label :
  NoDup (map fst STATUS_DISPLAY) /\
  (forall st, exists label,
     dict_get STATUS_DISPLAY (status_str st) = Some label) /\
  (forall a b,
     dict_get STATUS_DISPLAY (status_str a)
       = dict_get STATUS_DISPLAY (status_str b) -> a = b) /\
  (forall key,
     (forall st, key <> status_str st) ->
     dict_get STATUS_DISPLAY key = None).
Proof.
  split; [|split; [|split]].
  - unfold STATUS_DISPLAY. cbn [map fst].
    repeat (constructor;
            [cbn [In status_str]; intro H;
             repeat (destruct H as [H | H]; [discriminate H|]); exact H|]).
    constructor.
  - intros []; eexists; vm_compute; reflexivity.
  - intros [] []; vm_compute; intro H; try reflexivity; discriminate H.
  - intros key Hkey. unfold STATUS_DISPLAY, dict_get.
    repeat match goal with
           | |- context [String.eqb (status_str ?st) key] =>
               destruct (String.eqb_spec (status_str st) key) as [E | _];
               [exfalso; apply (Hkey st); symmetry; exact E|]
           end.
    reflexivity.
Qed.

Lemma every_status_has_a_label_witness :
  dict_get STATUS_DISPLAY "logged_out" = None.
Proof.
  apply (proj2 (proj2 (proj2 every_status_has_a_label))).
  intros []; discriminate.
Defined.

(** ** The two loops on scripted pages *)

Example login_on_third_avatar_page :
  fst (check_google_login_by_avatar (scripted third_avatar_page) 20%float
         initial_session) = Ok true /\
  calls (snd (check_google_login_by_avatar (scripted third_avatar_page) 20%float
                initial_session)) =
    (rev (visible_calls 20%float (firstn 3 avatar_selectors))
     ++ [goto_call accounts_url "domcontentloaded" (20 * 1000)%float])%list.
Proof. split; vm_compute; reflexivity. Qed.

Example offers_on_second_offer_page :
  fst (offer_loop (scripted second_offer_page) offer_selectors initial_session)
    = Ok (STATUS_VERIFIED, None) /\
  calls (snd (offer_loop (scripted second_offer_page) offer_selectors
                initial_session)) =
    rev (count_calls (firstn 2 offer_selectors)).
Proof. split; vm_compute; reflexivity. Qed.
